(** * GPScoordinatesInterpolation: geoid grid interpolation (src/main.cpp)

    A shallow embedding of [find_grid_indices], [interpolate_geoid_height],
    [load_geoid_model] and [compute_topographic_height].

    Numbers are modelled as the program has them:
    - [int] is a 32-bit signed integer, carried as a [Z]; signed overflow is
      undefined behaviour in C++ and is reported as such;
    - [double] is IEEE 754 binary64 with round-to-nearest-even, carried as a
      primitive [float]; every operation is rounded on its own (no fused
      multiply-add, no extended precision);
    - [std::vector<double>] is a [list]; reading or writing outside its
      bounds with [operator[]] is undefined behaviour and is reported as such.

    The grid functions are written over the arithmetic interface [Scalar],
    which binary64 instantiates. *)

From Stdlib Require Import ZArith List String Ascii Bool Lia.
From Stdlib Require Import QArith Qround Lqa.
From Stdlib Require Import Floats.
Import ListNotations.

Set Warnings "-inexact-float".

Local Open Scope string_scope.
Local Open Scope Z_scope.

(* ================================================================= *)
(** ** Outcomes of a C++ computation *)

(** The ways an execution leaves the defined behaviour of the language. *)
Inductive undefined : Type :=
  | OutOfRange     (* vector operator[] outside [0, size) *)
  | IntOverflow    (* signed int arithmetic leaving [INT_MIN, INT_MAX] *)
  | FloatToInt.    (* static_cast<int> of a double that int cannot hold *)

(** A computation returns a value, throws [std::runtime_error(what)], or
    has undefined behaviour. *)
Inductive outcome (A : Type) : Type :=
  | Ok (a : A)
  | Throw (what : string)
  | Undefined (u : undefined).

Arguments Ok {A} a.
Arguments Throw {A} what.
Arguments Undefined {A} u.

Definition bind {A B : Type} (c : outcome A) (k : A -> outcome B) : outcome B :=
  match c with
  | Ok a => k a
  | Throw w => Throw w
  | Undefined u => Undefined u
  end.

Notation "x <- c ;; k" := (bind c (fun x => k))
  (at level 61, c at next level, right associativity).

(* ================================================================= *)
(** ** [int] *)

Definition INT_MIN : Z := - 2 ^ 31.
Definition INT_MAX : Z := 2 ^ 31 - 1.

Definition in_int (z : Z) : bool := (INT_MIN <=? z) && (z <=? INT_MAX).

Definition to_int (z : Z) : outcome Z :=
  if in_int z then Ok z else Undefined IntOverflow.

Definition int_add (a b : Z) : outcome Z := to_int (a + b).
Definition int_sub (a b : Z) : outcome Z := to_int (a - b).
Definition int_mul (a b : Z) : outcome Z := to_int (a * b).

(** [std::max(lo, std::min(x, hi))] *)
Definition clamp (lo x hi : Z) : Z := Z.max lo (Z.min x hi).

(* ================================================================= *)
(** ** [std::vector] *)

(** [v[i]] as an rvalue; [i] is converted to [size_t], so a negative [int]
    is as far out of range as a large one. *)
Definition vec_at {A : Type} (v : list A) (i : Z) : outcome A :=
  if (0 <=? i) && (i <? Z.of_nat (List.length v)) then
    match nth_error v (Z.to_nat i) with
    | Some x => Ok x
    | None => Undefined OutOfRange
    end
  else Undefined OutOfRange.

Fixpoint set_nth {A : Type} (n : nat) (x : A) (v : list A) : list A :=
  match v, n with
  | [], _ => []
  | _ :: t, O => x :: t
  | h :: t, S n' => h :: set_nth n' x t
  end.

(** [v[i] = x] *)
Definition vec_set {A : Type} (v : list A) (i : Z) (x : A) : outcome (list A) :=
  if (0 <=? i) && (i <? Z.of_nat (List.length v)) then Ok (set_nth (Z.to_nat i) x v)
  else Undefined OutOfRange.

(* ================================================================= *)
(** ** The arithmetic the grid functions use *)

(** What [find_grid_indices] and [interpolate_geoid_height] ask of [double]:
    the four operations, the conversion from [int], and the two casts
    [static_cast<int>(std::floor(x))] and [static_cast<int>(std::ceil(x))]. *)
Class Scalar (R : Type) : Type := {
  radd : R -> R -> R;
  rsub : R -> R -> R;
  rmul : R -> R -> R;
  rdiv : R -> R -> R;
  of_int : Z -> R;
  floor_int : R -> outcome Z;
  ceil_int : R -> outcome Z
}.

Declare Scope scalar_scope.
Delimit Scope scalar_scope with sc.
Notation "x + y" := (radd x y) : scalar_scope.
Notation "x - y" := (rsub x y) : scalar_scope.
Notation "x * y" := (rmul x y) : scalar_scope.
Notation "x / y" := (rdiv x y) : scalar_scope.

(* ----------------------------------------------------------------- *)
(** *** binary64 *)

Module Double.

(** The integer [floor x] of a finite binary64 value, read off its
    sign, mantissa and exponent: the value is [(-1)^s * m * 2^e]. *)
Definition SFfloor (x : spec_float) : option Z :=
  match x with
  | S754_zero _ => Some 0%Z
  | S754_finite s m e => Some (Z.shiftl (cond_Zopp s (Zpos m)) e)
  | S754_infinity _ | S754_nan => None
  end.

Definition SFceil (x : spec_float) : option Z :=
  match x with
  | S754_zero _ => Some 0%Z
  | S754_finite s m e => Some (- Z.shiftl (- cond_Zopp s (Zpos m)) e)%Z
  | S754_infinity _ | S754_nan => None
  end.

(** [static_cast<int>(d)] for an integer-valued [d]: the value when [int]
    holds it, undefined otherwise (also for NaN and the infinities, which
    [std::floor] and [std::ceil] hand through unchanged). *)
Definition cast_int (integral : option Z) : outcome Z :=
  match integral with
  | Some z => if in_int z then Ok z else Undefined FloatToInt
  | None => Undefined FloatToInt
  end.

Definition floor_int (x : float) : outcome Z := cast_int (SFfloor (Prim2SF x)).
Definition ceil_int (x : float) : outcome Z := cast_int (SFceil (Prim2SF x)).

(** [int] to [double]; exact, as an [int] has at most 31 significant bits. *)
Definition of_int (z : Z) : float :=
  if (z <? 0)%Z then PrimFloat.opp (PrimFloat.of_uint63 (Uint63.of_Z (- z)))
  else PrimFloat.of_uint63 (Uint63.of_Z z).

End Double.

#[export] Instance double_scalar : Scalar float := {
  radd := PrimFloat.add;
  rsub := PrimFloat.sub;
  rmul := PrimFloat.mul;
  rdiv := PrimFloat.div;
  of_int := Double.of_int;
  floor_int := Double.floor_int;
  ceil_int := Double.ceil_int
}.

(* ================================================================= *)
(** ** The grid *)

(** [struct GeoidModel] *)
Record GeoidModel (R : Type) : Type := mkGeoidModel {
  nrows : Z;
  ncols : Z;
  lat_min : R;
  lon_min : R;
  lat_step : R;
  lon_step : R;
  data : list R
}.

Arguments mkGeoidModel {R}.
Arguments nrows {R}.
Arguments ncols {R}.
Arguments lat_min {R}.
Arguments lon_min {R}.
Arguments lat_step {R}.
Arguments lon_step {R}.
Arguments data {R}.

(** The four indices [find_grid_indices] writes through its reference
    parameters. *)
Record indices : Type := mkIndices {
  row1 : Z;
  col1 : Z;
  row2 : Z;
  col2 : Z
}.

Section Grid.

Context {R : Type} `{Scalar R}.
Local Open Scope scalar_scope.

(** The second half of [find_grid_indices]: the fractional position
    [row], [col] rounded down and up, converted to [int], then clamped. *)
Definition clamped_indices (model : GeoidModel R) (row col : R) : outcome indices :=
  r1 <- floor_int row ;;
  r2 <- ceil_int row ;;
  c1 <- floor_int col ;;
  c2 <- ceil_int col ;;
  rmax <- int_sub (nrows model) 1 ;;
  cmax <- int_sub (ncols model) 1 ;;
  Ok {| row1 := clamp 0 r1 rmax;
        col1 := clamp 0 c1 cmax;
        row2 := clamp 0 r2 rmax;
        col2 := clamp 0 c2 cmax |}.

(** [find_grid_indices]: the position of the query in units of the grid
    step, then the indices around it. *)
Definition find_grid_indices (model : GeoidModel R) (lat lon : R) : outcome indices :=
  let row := (lat - lat_min model) / lat_step model in
  let col := (lon - lon_min model) / lon_step model in
  clamped_indices model row col.

(** [model.data[row * model.ncols + col]] *)
Definition sample (model : GeoidModel R) (row col : Z) : outcome R :=
  o <- int_mul row (ncols model) ;;
  i <- int_add o col ;;
  vec_at (data model) i.

(** [interpolate_geoid_height] *)
Definition interpolate_geoid_height (model : GeoidModel R) (lat lon : R) : outcome R :=
  ix <- find_grid_indices model lat lon ;;
  h11 <- sample model (row1 ix) (col1 ix) ;;
  h12 <- sample model (row1 ix) (col2 ix) ;;
  h21 <- sample model (row2 ix) (col1 ix) ;;
  h22 <- sample model (row2 ix) (col2 ix) ;;
  let dlat := (lat - lat_min model - of_int (row1 ix) * lat_step model) / lat_step model in
  let dlon := (lon - lon_min model - of_int (col1 ix) * lon_step model) / lon_step model in
  let h1 := h11 + dlon * (h12 - h11) in
  let h2 := h21 + dlon * (h22 - h21) in
  let h := h1 + dlat * (h2 - h1) in
  Ok h.

(** [compute_topographic_height] *)
Definition compute_topographic_height (model : GeoidModel R) (lat lon ellipsoid_height : R)
  : outcome R :=
  geoid_height <- interpolate_geoid_height model lat lon ;;
  let topographic_height := ellipsoid_height - geoid_height in
  Ok topographic_height.

End Grid.

(* ================================================================= *)
(** ** Text input *)

Definition tab : ascii := "009"%char.
Definition newline : ascii := "010"%char.

(** The header [load_geoid_model] insists on: "Longitude\tLatitude\tHeight". *)
Definition HEADER : string :=
  "Longitude" ++ String tab ("Latitude" ++ String tab "Height").

(** The lines successive calls of [std::getline] deliver from a file with
    this content: text up to each newline, the newline dropped; text after
    the last newline is a line only when there is some. *)
Fixpoint split_lines (s : string) : list string :=
  match s with
  | EmptyString => []
  | String c s' =>
      if Ascii.eqb c newline then EmptyString :: split_lines s'
      else match split_lines s' with
           | [] => [String c EmptyString]
           | l :: t => String c l :: t
           end
  end.

(** An open [std::ifstream], as the lines it has yet to deliver. *)
Definition stream : Type := list string.

(** [std::getline(file, line)]: [None] when the stream is exhausted. *)
Definition getline (file : stream) : option (string * stream) :=
  match file with
  | [] => None
  | line :: rest => Some (line, rest)
  end.

(** *** [operator>>(double&)]

    The standard library's extraction of a [double] from a stream, as
    libstdc++ does it: skip white space, read
    an optional sign, digits, an optional point with more digits (at least
    one digit in all), and an optional exponent [e] or [E] with its own
    optional sign and at least one digit; then round the decimal to the nearest binary64; a value
    too large for a [double] sets the stream's fail bit. *)
Module Extract.

Definition is_space (c : ascii) : bool :=
  let n := nat_of_ascii c in
  Nat.eqb n 32 || (Nat.leb 9 n && Nat.leb n 13).

Definition digit (c : ascii) : option Z :=
  let n := Z.of_nat (nat_of_ascii c) in
  if (48 <=? n) && (n <=? 57) then Some (n - 48) else None.

Fixpoint skip_ws (s : string) : string :=
  match s with
  | String c s' => if is_space c then skip_ws s' else s
  | EmptyString => s
  end.

(** Digits read into [acc]; [n] counts them. *)
Fixpoint scan_digits (s : string) (acc n : Z) : Z * Z * string :=
  match s with
  | String c s' =>
      match digit c with
      | Some d => scan_digits s' (10 * acc + d) (n + 1)
      | None => (acc, n, s)
      end
  | EmptyString => (acc, n, s)
  end.

Definition scan_sign (s : string) : bool * string :=
  match s with
  | String "-"%char s' => (true, s')
  | String "+"%char s' => (false, s')
  | _ => (false, s)
  end.

(** The binary64 nearest to [(-1)^neg * m * 10^e10], for [0 <= m]. *)
Definition decimal_to_double (neg : bool) (m e10 : Z) : spec_float :=
  if m =? 0 then S754_zero neg
  else if 0 <=? e10 then
    binary_normalize prec emax (cond_Zopp neg (m * 10 ^ e10)) 0 false
  else
    let d := 10 ^ (- e10) in
    let s := Z.max 0 (64 + Z.log2 d - Z.log2 m) in
    let (q, r) := Z.div_eucl (m * 2 ^ s) d in
    let loc := if r =? 0 then loc_Exact else loc_Inexact (Z.compare (2 * r) d) in
    binary_round_aux prec emax neg q (- s) loc.

Definition finish (neg : bool) (m e10 : Z) (rest : string) : option (float * string) :=
  match decimal_to_double neg m e10 with
  | S754_infinity _ | S754_nan => None
  | x => Some (SF2Prim x, rest)
  end.

(** [iss >> x]: the value and the rest of the stream, or failure. *)
Definition double (s : string) : option (float * string) :=
  let (neg, s1) := scan_sign (skip_ws s) in
  let '(ip, ni, s2) := scan_digits s1 0 0 in
  let '(m, nf, s3) :=
    match s2 with
    | String "."%char s' => scan_digits s' ip 0
    | _ => (ip, 0, s2)
    end in
  if ni + nf =? 0 then None
  else match s3 with
       | String ("e" | "E")%char s' =>
           let (eneg, s4) := scan_sign s' in
           let '(ev, ne, s5) := scan_digits s4 0 0 in
           if ne =? 0 then None
           else finish neg m (cond_Zopp eneg ev - nf) s5
       | _ => finish neg m (- nf) s3
       end.

End Extract.

(** [iss >> lon >> lat >> h] on a stream over [line]: three extractions in
    a row, failing as soon as one fails; what follows the third value is
    never looked at. *)
Definition parse_row (line : string) : option (float * float * float) :=
  match Extract.double line with
  | None => None
  | Some (lon, s1) =>
      match Extract.double s1 with
      | None => None
      | Some (lat, s2) =>
          match Extract.double s2 with
          | None => None
          | Some (h, _) => Some (lon, lat, h)
          end
      end
  end.

(* ================================================================= *)
(** ** Loading *)

Definition invalid_format : string := "Invalid file format".

(** [while (std::getline(file, line)) ++model.nrows;] *)
Fixpoint count_rows (file : stream) (n : Z) : outcome Z :=
  match file with
  | [] => Ok n
  | _ :: rest => n' <- int_add n 1 ;; count_rows rest n'
  end.

(** [for (char c : line) if (c == '\t') ++model.ncols;] *)
Fixpoint count_tabs (line : string) (n : Z) : Z :=
  match line with
  | EmptyString => n
  | String c s' => count_tabs s' (if Ascii.eqb c tab then n + 1 else n)
  end.

(** The loop over the data rows, [left] iterations from row [i] on. *)
Fixpoint read_rows (left : nat) (i ncols : Z) (file : stream) (data : list float)
  : outcome (list float) :=
  match left with
  | O => Ok data
  | S left' =>
      match getline file with
      | None => Throw invalid_format
      | Some (line, file') =>
          match parse_row line with
          | None => Throw invalid_format
          | Some (lon, lat, h) =>
              j <- int_mul i ncols ;;
              d1 <- vec_set data j lon ;;
              j1 <- int_add j 1 ;;
              d2 <- vec_set d1 j1 lat ;;
              j2 <- int_add j 2 ;;
              d3 <- vec_set d2 j2 h ;;
              read_rows left' (i + 1) ncols file' d3
          end
      end
  end.

(** The spacing formula of both steps: [(max - min) / (count - 1)], the
    divisor converted from [int]. *)
Definition grid_step (vmax vmin : float) (count : Z) : float :=
  ((vmax - vmin) / Double.of_int (count - 1))%float.

(** The last block of [load_geoid_model], "Compute the grid step sizes and
    minimum lat/lon values", on the counts and the filled vector. *)
Definition geometry (nrows ncols : Z) (data : list float) : outcome (GeoidModel float) :=
  lon_min <- vec_at data 0 ;;
  lat_min <- vec_at data 1 ;;
  c1 <- int_sub ncols 1 ;;
  ilon <- int_mul c1 3 ;;
  lon_max <- vec_at data ilon ;;
  r1 <- int_sub nrows 1 ;;
  o <- int_mul r1 ncols ;;
  ilat <- int_add o 1 ;;
  lat_max <- vec_at data ilat ;;
  Ok {| nrows := nrows; ncols := ncols;
        lat_min := lat_min; lon_min := lon_min;
        lat_step := grid_step lat_max lat_min nrows;
        lon_step := grid_step lon_max lon_min ncols;
        data := data |}.

(** [load_geoid_model]; [fs] is the file system, giving the content of the
    files that can be opened. *)
Definition load_geoid_model (fs : string -> option string) (filename : string)
  : outcome (GeoidModel float) :=
  match fs filename with
  | None => Throw ("Error opening file " ++ filename)
  | Some content =>
      let file := split_lines content in
      let (line, file) :=
        match getline file with Some lf => lf | None => (EmptyString, file) end in
      if negb (String.eqb line HEADER) then Throw invalid_format
      else
        nrows <- count_rows file 0 ;;
        (* file.clear(); file.seekg(0); *)
        let file := split_lines content in
        let (line, file) :=
          match getline file with Some lf => lf | None => (EmptyString, file) end in
        ncols <- int_add (count_tabs line 0) 1 ;;
        size <- int_mul nrows ncols ;;
        let data := repeat 0%float (Z.to_nat size) in
        data <- read_rows (Z.to_nat nrows) 0 ncols file data ;;
        geometry nrows ncols data
  end.

(* ================================================================= *)
(** ** Vocabulary of the statements *)

(** The first line of a file's content (empty when there is none) and the
    lines after it. *)
Definition header_line (content : string) : string :=
  match split_lines content with
  | [] => EmptyString
  | line :: _ => line
  end.

Definition data_lines (content : string) : list string :=
  match split_lines content with
  | [] => []
  | _ :: rows => rows
  end.

(** A row in the words of the specification, "exactly three floating-point
    tokens": the row cut at white space gives three pieces, each of them a
    complete number. *)
Fixpoint tokens_from (s : string) (cur : string) : list string :=
  let flush := match cur with EmptyString => [] | _ => [cur] end in
  match s with
  | EmptyString => flush
  | String c s' =>
      if Extract.is_space c then flush ++ tokens_from s' EmptyString
      else tokens_from s' (cur ++ String c EmptyString)
  end.

Definition tokens (s : string) : list string := tokens_from s EmptyString.

Definition is_float_token (t : string) : bool :=
  match Extract.double t with
  | Some (_, EmptyString) => true
  | _ => false
  end.

Definition exactly_three_floats (row : string) : bool :=
  match tokens row with
  | [a; b; c] => is_float_token a && is_float_token b && is_float_token c
  | _ => false
  end.

(** Three doubles can be extracted from [row] one after the other, each
    extraction starting where the one before stopped. *)
Definition reads_three_numbers (row : string) : Prop :=
  exists (lon lat h : float) (s1 s2 s3 : string),
    Extract.double row = Some (lon, s1) /\
    Extract.double s1 = Some (lat, s2) /\
    Extract.double s2 = Some (h, s3).

(** Row [i] of the vector holds the three values read from [line]. *)
Definition row_stored (data : list float) (i : Z) (line : string) : Prop :=
  exists lon lat h,
    parse_row line = Some (lon, lat, h) /\
    vec_at data (3 * i) = Ok lon /\
    vec_at data (3 * i + 1) = Ok lat /\
    vec_at data (3 * i + 2) = Ok h.

(** A binary64 value that is neither NaN nor infinite, read off its
    specification. *)
Definition finite (x : float) : bool :=
  match Prim2SF x with
  | S754_zero _ | S754_finite _ _ _ => true
  | S754_infinity _ | S754_nan => false
  end.

(** Zero of either sign. *)
Definition is_zero_spec (x : spec_float) : Prop := exists s, x = S754_zero s.

(** Two binary64 values equal as numbers: the same value, or two zeros. *)
Definition same (x y : float) : Prop :=
  Prim2SF x = Prim2SF y \/ (is_zero_spec (Prim2SF x) /\ is_zero_spec (Prim2SF y)).

(** The rational number a finite binary64 value stands for: sign times
    mantissa times two to the exponent (and 0 for NaN and the infinities,
    which [finite] tells apart). *)
Definition SF2Q (x : spec_float) : Q :=
  match x with
  | S754_finite s m e =>
      if 0 <=? e then inject_Z (cond_Zopp s (Zpos m) * 2 ^ e)
      else cond_Zopp s (Zpos m) # Z.to_pos (2 ^ (- e))
  | S754_zero _ | S754_infinity _ | S754_nan => 0%Q
  end.

Definition B2Q (x : float) : Q := SF2Q (Prim2SF x).

(** The binary64 operation [op] on [a] and [b] did not round: the operands
    and the result are finite, and the result stands for the result of
    [qop] on what [a] and [b] stand for. *)
Definition exact_op (op : float -> float -> float) (qop : Q -> Q -> Q) (a b : float) : Prop :=
  finite a = true /\ finite b = true /\ finite (op a b) = true /\
  (B2Q (op a b) == qop (B2Q a) (B2Q b))%Q.

(** None of the operations on one coordinate rounds: the fractional
    position [(x - x_min) / step] of [find_grid_indices] and the offset
    [(x - x_min - i * step) / step] of [interpolate_geoid_height], with the
    conversion of the index [i]. *)
Definition exact_offset (x x_min step : float) (i : Z) : Prop :=
  let d := (x - x_min)%float in
  let n := Double.of_int i in
  exact_op PrimFloat.sub Qminus x x_min /\
  exact_op PrimFloat.div Qdiv d step /\
  (finite n = true /\ (B2Q n == inject_Z i)%Q) /\
  exact_op PrimFloat.mul Qmult n step /\
  exact_op PrimFloat.sub Qminus d (n * step)%float /\
  exact_op PrimFloat.div Qdiv (d - n * step)%float step.

(** None of the nine operations of the blend of the four corners rounds. *)
Definition exact_blend (h11 h12 h21 h22 dlat dlon : float) : Prop :=
  let h1 := (h11 + dlon * (h12 - h11))%float in
  let h2 := (h21 + dlon * (h22 - h21))%float in
  exact_op PrimFloat.sub Qminus h12 h11 /\
  exact_op PrimFloat.mul Qmult dlon (h12 - h11)%float /\
  exact_op PrimFloat.add Qplus h11 (dlon * (h12 - h11))%float /\
  exact_op PrimFloat.sub Qminus h22 h21 /\
  exact_op PrimFloat.mul Qmult dlon (h22 - h21)%float /\
  exact_op PrimFloat.add Qplus h21 (dlon * (h22 - h21))%float /\
  exact_op PrimFloat.sub Qminus h2 h1 /\
  exact_op PrimFloat.mul Qmult dlat (h2 - h1)%float /\
  exact_op PrimFloat.add Qplus h1 (dlat * (h2 - h1))%float.

(** No operation that [find_grid_indices] and [interpolate_geoid_height]
    perform on the query [(lat, lon)], with indices [ix] and corners
    [h11], [h12], [h21], [h22], rounds. *)
Definition exact_query (model : GeoidModel float) (lat lon : float) (ix : indices)
           (h11 h12 h21 h22 : float) : Prop :=
  exact_offset lat (lat_min model) (lat_step model) (row1 ix) /\
  exact_offset lon (lon_min model) (lon_step model) (col1 ix) /\
  exact_blend h11 h12 h21 h22
    ((lat - lat_min model - Double.of_int (row1 ix) * lat_step model) / lat_step model)%float
    ((lon - lon_min model - Double.of_int (col1 ix) * lon_step model) / lon_step model)%float.

(** None of the operations of [a + t * (b - a)] rounds. *)
Definition exact_between (a b t : float) : Prop :=
  exact_op PrimFloat.sub Qminus b a /\
  exact_op PrimFloat.mul Qmult t (b - a)%float /\
  exact_op PrimFloat.add Qplus a (t * (b - a))%float.

(** The bilinear formula of [interpolate_geoid_height] over the rationals. *)
Definition bilinear_Q (lat lat_min lat_step lon lon_min lon_step : Q) (r c : Z)
           (h11 h12 h21 h22 : Q) : Q :=
  (let dlat := (lat - lat_min - inject_Z r * lat_step) / lat_step in
   let dlon := (lon - lon_min - inject_Z c * lon_step) / lon_step in
   let h1 := h11 + dlon * (h12 - h11) in
   let h2 := h21 + dlon * (h22 - h21) in
   h1 + dlat * (h2 - h1))%Q.

(** The well-formedness of a grid that the interpolation relies on: as many
    samples as cells, and few enough for [int] index arithmetic. *)
Definition well_formed {R : Type} (model : GeoidModel R) : Prop :=
  1 <= nrows model /\ 1 <= ncols model /\
  nrows model * ncols model <= INT_MAX /\
  Z.of_nat (List.length (data model)) = nrows model * ncols model.

(* ================================================================= *)
(** ** Sample grids and files *)

(** The 2 x 2 grid of the specification's scenario: latitudes 40 and 41,
    longitudes -9 and -8. *)
Definition grid22 : GeoidModel float :=
  mkGeoidModel 2 2 40%float (-9)%float 1%float 1%float [50; 52; 48; 49]%float.

(** A 4 x 2 grid with a latitude step of a tenth of a degree. *)
Definition grid42 : GeoidModel float :=
  mkGeoidModel 4 2 40%float (-9)%float 0.1%float 1%float
    [10; 11; 20; 21; 30; 31; 40; 41]%float.

Definition lines_to_file (ls : list string) : string :=
  fold_right (fun l rest => l ++ String newline rest) EmptyString ls.

(** A file system holding one file. *)
Definition one_file (name content : string) : string -> option string :=
  fun f => if String.eqb f name then Some content else None.

Definition geod_name : string := "GeodPT08.dat".

Definition file_three_rows : string :=
  lines_to_file [HEADER; "-9.5 36.25 54.1"; "-9.25 36.5 54.3"; "-9 36.75 54.4"].

Definition file_header_only : string := lines_to_file [HEADER].


Definition file_extra_token : string :=
  lines_to_file [HEADER; "1 2 3 4"; "5 6 7"; "8 9 10"].

(** A first row of two tokens, the first of them two numbers run together. *)
Definition file_unseparated : string :=
  lines_to_file [HEADER; "1.5.25 2"; "5 6 7"; "8 9 10"].

Definition file_two_tokens : string :=
  lines_to_file [HEADER; "1 2 3"; "5 6"; "8 9 10"].

Definition file_bad_header : string :=
  lines_to_file ["Longitude Latitude Height"; "1 2 3"; "5 6 7"; "8 9 10"].

Definition file_two_rows : string :=
  lines_to_file [HEADER; "-9.5 36.25 54.1"; "-9.25 36.5 54.3"].

(** Three rows on one meridian. *)
Definition file_one_meridian : string :=
  lines_to_file [HEADER; "-9 36 54.1"; "-9 36.5 54.3"; "-9 37 54.4"].

(** The three rows again, with an empty line at the end. *)
Definition file_blank_line : string :=
  lines_to_file [HEADER; "-9.5 36.25 54.1"; "-9.25 36.5 54.3"; "-9 36.75 54.4"; ""].

(** The 2 x 2 grid with a tenth and four tenths in its first row. *)
Definition grid_tenths : GeoidModel float :=
  mkGeoidModel 2 2 40%float (-9)%float 1%float 1%float [0.1; 0.4; 48.7; 49.2]%float.

(** A grid whose samples are all 54.5. *)
Definition grid_flat : GeoidModel float :=
  mkGeoidModel 2 3 40%float (-9)%float 0.1%float 0.3%float
    [54.5; 54.5; 54.5; 54.5; 54.5; 54.5]%float.

(** The 2 x 2 grid with no latitude step. *)
Definition grid_no_step : GeoidModel float :=
  mkGeoidModel 2 2 40%float (-9)%float 0%float 1%float [50; 52; 48; 49]%float.

(* ================================================================= *)
(** * Properties *)

(** ** Outcomes, [int] and vectors *)

Lemma bind_ok {A B : Type} (c : outcome A) (k : A -> outcome B) (b : B) :
  bind c k = Ok b -> exists a, c = Ok a /\ k a = Ok b.
Proof. destruct c; simpl; intros E; try discriminate; eauto. Qed.

Lemma bind_throw {A B : Type} (c : outcome A) (k : A -> outcome B) (w : string) :
  bind c k = Throw w -> c = Throw w \/ exists a, c = Ok a /\ k a = Throw w.
Proof. destruct c; simpl; intros E; try discriminate; [right; eauto | left; congruence]. Qed.

Ltac inv_bind H :=
  let a := fresh "v" in
  let E := fresh "E" in
  apply bind_ok in H; destruct H as (a & E & H).

Lemma in_int_iff (z : Z) : in_int z = true <-> INT_MIN <= z <= INT_MAX.
Proof. unfold in_int. rewrite andb_true_iff, !Z.leb_le. tauto. Qed.

Lemma to_int_ok (z v : Z) : to_int z = Ok v -> v = z /\ INT_MIN <= z <= INT_MAX.
Proof.
  unfold to_int. destruct (in_int z) eqn:E; intros X; inversion X; subst.
  split; [reflexivity | now apply in_int_iff].
Qed.

Lemma to_int_in (z : Z) : INT_MIN <= z <= INT_MAX -> to_int z = Ok z.
Proof. intros I. unfold to_int. apply in_int_iff in I. now rewrite I. Qed.

Lemma to_int_no_throw (z : Z) (w : string) : to_int z <> Throw w.
Proof. unfold to_int. destruct (in_int z); discriminate. Qed.

Lemma clamp_range (x hi : Z) : 0 <= hi -> 0 <= clamp 0 x hi <= hi.
Proof. unfold clamp. lia. Qed.

Lemma clamp_inside (x hi : Z) : 0 <= x <= hi -> clamp 0 x hi = x.
Proof. unfold clamp. lia. Qed.

Lemma vec_at_ok {A : Type} (v : list A) (i : Z) (x : A) :
  vec_at v i = Ok x <->
  0 <= i < Z.of_nat (List.length v) /\ nth_error v (Z.to_nat i) = Some x.
Proof.
  unfold vec_at. destruct ((0 <=? i) && (i <? Z.of_nat (List.length v))) eqn:B.
  - apply andb_true_iff in B. destruct B as [B1 B2].
    apply Z.leb_le in B1. apply Z.ltb_lt in B2.
    destruct (nth_error v (Z.to_nat i)) eqn:N; split.
    + intros X. inversion X. subst. auto.
    + intros [_ X]. inversion X. reflexivity.
    + discriminate.
    + intros [_ X]. discriminate.
  - split; [discriminate|]. intros [I _].
    apply andb_false_iff in B. destruct B as [B|B].
    + apply Z.leb_gt in B. lia.
    + apply Z.ltb_ge in B. lia.
Qed.

Lemma vec_at_in {A : Type} (v : list A) (i : Z) :
  0 <= i < Z.of_nat (List.length v) -> exists x, vec_at v i = Ok x.
Proof.
  intros I. destruct (nth_error v (Z.to_nat i)) eqn:N.
  - exists a. apply vec_at_ok. auto.
  - apply nth_error_None in N. lia.
Qed.

Lemma vec_at_no_throw {A : Type} (v : list A) (i : Z) (w : string) : vec_at v i <> Throw w.
Proof.
  unfold vec_at. destruct ((0 <=? i) && (i <? Z.of_nat (List.length v))); [|discriminate].
  destruct (nth_error v (Z.to_nat i)); discriminate.
Qed.

(* ================================================================= *)
(** ** [compute_topographic_height] *)

(** C1. [compute_topographic_height] is the ellipsoid height minus the
    interpolated geoid height, for every grid, coordinate and height; it
    fails exactly as the interpolation fails and in no other way.  With an
    interpolated geoid height of 50.0 and an ellipsoid height of 148.0 the
    result is 98.0. *)
Theorem compute_topographic_height_identity :
  forall (model : GeoidModel float) (lat lon ellipsoid_height : float),
    compute_topographic_height model lat lon ellipsoid_height =
      match interpolate_geoid_height model lat lon with
      | Ok geoid_height => Ok (ellipsoid_height - geoid_height)%float
      | Throw w => Throw w
      | Undefined u => Undefined u
      end
    /\ (interpolate_geoid_height model lat lon = Ok 50%float ->
        compute_topographic_height model lat lon 148%float = Ok 98%float).
Proof.
  intros model lat lon h. split.
  - unfold compute_topographic_height.
    destruct (interpolate_geoid_height model lat lon); reflexivity.
  - intros E. unfold compute_topographic_height. rewrite E. reflexivity.
Qed.

(** The scenario of C1 on the 2 x 2 grid: at the corner (40, -9) the geoid
    height is 50.0, and 148.0 gives 98.0. *)
Lemma compute_topographic_height_identity_witness :
  interpolate_geoid_height grid22 40%float (-9)%float = Ok 50%float /\
  compute_topographic_height grid22 40%float (-9)%float 148%float = Ok 98%float.
Proof.
  split; [vm_compute; reflexivity|].
  apply (compute_topographic_height_identity grid22 40%float (-9)%float 148%float).
  vm_compute; reflexivity.
Defined.

(* ================================================================= *)
(** ** The scenario on the 2 x 2 grid *)

(** C2. On the 2 x 2 grid with corners 50.0, 52.0, 48.0, 49.0 the query
    (40.5, -8.5) lies in the cell with rows 0, 1 and columns 0, 1 and gives
    exactly 49.75, a quarter of the sum of the corners: along the longitude
    first in both rows (51.0 and 48.5), then along the latitude between
    them. *)
Theorem interpolate_grid22_centre :
  find_grid_indices grid22 40.5%float (-8.5)%float
    = Ok {| row1 := 0; col1 := 0; row2 := 1; col2 := 1 |}
  /\ interpolate_geoid_height grid22 40.5%float (-8.5)%float = Ok 49.75%float
  /\ ((50 + 52 + 48 + 49) / 4 = 49.75)%float
  /\ (let h1 := 50 + 0.5 * (52 - 50) in
      let h2 := 48 + 0.5 * (49 - 48) in
      h1 = 51 /\ h2 = 48.5 /\ h1 + 0.5 * (h2 - h1) = 49.75)%float.
Proof. vm_compute. repeat split. Qed.

(* ================================================================= *)
(** ** [find_grid_indices] *)

Section Clamping.

Context {R : Type} `{Scalar R}.

(** Whatever indices [find_grid_indices] returns lie in the grid. *)
Lemma find_grid_indices_clamped (model : GeoidModel R) (lat lon : R) (ix : indices) :
  1 <= nrows model -> 1 <= ncols model ->
  find_grid_indices model lat lon = Ok ix ->
  0 <= row1 ix <= nrows model - 1 /\ 0 <= row2 ix <= nrows model - 1 /\
  0 <= col1 ix <= ncols model - 1 /\ 0 <= col2 ix <= ncols model - 1.
Proof.
  intros Hr Hc E. unfold find_grid_indices, clamped_indices in E.
  do 6 inv_bind E. inversion E; subst; clear E. simpl.
  apply to_int_ok in E4, E5. destruct E4 as [-> _], E5 as [-> _].
  repeat split; apply clamp_range; lia.
Qed.

End Clamping.

(** No call of [find_grid_indices] throws. *)
Lemma find_grid_indices_no_throw (model : GeoidModel float) (lat lon : float) (w : string) :
  find_grid_indices model lat lon <> Throw w.
Proof.
  assert (F : forall o, Double.cast_int o <> Throw w).
  { intros [z|]; simpl; [destruct (in_int z)|]; discriminate. }
  unfold find_grid_indices, clamped_indices. intros E.
  repeat (apply bind_throw in E; destruct E as [E|(? & _ & E)];
          [first [ now apply F in E | now apply to_int_no_throw in E ] |]).
  discriminate.
Qed.

(** Rounding down never exceeds rounding up. *)
Lemma SFfloor_le_ceil (x : spec_float) (lo hi : Z) :
  Double.SFfloor x = Some lo -> Double.SFceil x = Some hi -> lo <= hi.
Proof.
  destruct x as [s|s| |s m e]; simpl; intros L H; inversion L; inversion H; subst.
  - lia.
  - set (a := cond_Zopp s (Z.pos m)).
    destruct (Z.le_gt_cases 0 e) as [P|N].
    + rewrite !Z.shiftl_mul_pow2 by exact P. lia.
    + rewrite !Z.shiftl_div_pow2 by lia.
      assert (D : 0 < 2 ^ (- e)) by (apply Z.pow_pos_nonneg; lia).
      pose proof (Z.div_mod a (2 ^ (- e))) as Qa.
      pose proof (Z.mod_pos_bound a (2 ^ (- e)) D) as Ra.
      pose proof (Z.div_mod (- a) (2 ^ (- e))) as Qn.
      pose proof (Z.mod_pos_bound (- a) (2 ^ (- e)) D) as Rn.
      nia.
Qed.

Lemma floor_int_le_ceil_int (x : float) (lo hi : Z) :
  Double.floor_int x = Ok lo -> Double.ceil_int x = Ok hi -> lo <= hi.
Proof.
  unfold Double.floor_int, Double.ceil_int, Double.cast_int.
  destruct (Double.SFfloor (Prim2SF x)) as [l|] eqn:L; [|discriminate].
  destruct (Double.SFceil (Prim2SF x)) as [h|] eqn:H; [|discriminate].
  destruct (in_int l); [|discriminate]. destruct (in_int h); [|discriminate].
  intros El Eh. inversion El; inversion Eh; subst.
  exact (SFfloor_le_ceil _ _ _ L H).
Qed.

(** C4, as stated, fails twice over.  By rounding: on the 4 x 2 grid with
    latitude step 0.1 the last row is at latitude 40.3; a query there has
    fractional row 2.9999999999999716 and gets rows 2 and 3, a query beyond
    it, at latitude 50, gets rows 3 and 3.  And for a query far enough
    away the conversion to [int], which comes before the clamp, is not
    defined: on the 2 x 2 grid the latitude 1e10 has fractional row
    9999999960. *)
Lemma beyond_bound_not_edge :
  ((lat_min grid42 + Double.of_int (nrows grid42 - 1) * lat_step grid42 = 40.3)%float
   /\ find_grid_indices grid42 40.3%float (-9)%float
        = Ok {| row1 := 2; col1 := 0; row2 := 3; col2 := 0 |}
   /\ find_grid_indices grid42 50%float (-9)%float
        = Ok {| row1 := 3; col1 := 0; row2 := 3; col2 := 0 |}
   /\ find_grid_indices grid42 50%float (-9)%float
        <> find_grid_indices grid42 40.3%float (-9)%float)
  /\ (((1e10 - lat_min grid22) / lat_step grid22 = 9999999960)%float
      /\ find_grid_indices grid22 1e10%float (-8.5)%float = Undefined FloatToInt
      /\ find_grid_indices grid22 41%float (-8.5)%float
           = Ok {| row1 := 1; col1 := 0; row2 := 1; col2 := 1 |}).
Proof. vm_compute. repeat split. discriminate. Qed.

(** C4, amended.  On a grid with at least one row and one column no call
    of [find_grid_indices] throws, whatever the query.  Whenever the
    fractional row and column of the query, rounded down and up, fit an
    [int], the four indices returned lie in [0, nrows - 1] and
    [0, ncols - 1]; a query at or beyond the last row (fractional row at
    least [nrows - 1]) gets the last row twice and one at or before the
    first row (fractional row at most 0) gets row 0 twice, and likewise for
    the columns. *)
Theorem find_grid_indices_clamps :
  forall (model : GeoidModel float) (lat lon : float),
    1 <= nrows model <= INT_MAX -> 1 <= ncols model <= INT_MAX ->
    (forall w, find_grid_indices model lat lon <> Throw w) /\
    (forall fr cr fc cc : Z,
        floor_int ((lat - lat_min model) / lat_step model)%sc = Ok fr ->
        ceil_int ((lat - lat_min model) / lat_step model)%sc = Ok cr ->
        floor_int ((lon - lon_min model) / lon_step model)%sc = Ok fc ->
        ceil_int ((lon - lon_min model) / lon_step model)%sc = Ok cc ->
        exists ix,
          find_grid_indices model lat lon = Ok ix /\
          (0 <= row1 ix <= nrows model - 1 /\ 0 <= row2 ix <= nrows model - 1 /\
           0 <= col1 ix <= ncols model - 1 /\ 0 <= col2 ix <= ncols model - 1) /\
          (nrows model - 1 <= fr -> row1 ix = nrows model - 1 /\ row2 ix = nrows model - 1) /\
          (cr <= 0 -> row1 ix = 0 /\ row2 ix = 0) /\
          (ncols model - 1 <= fc -> col1 ix = ncols model - 1 /\ col2 ix = ncols model - 1) /\
          (cc <= 0 -> col1 ix = 0 /\ col2 ix = 0)).
Proof.
  intros model lat lon Hr Hc.
  split; [intros w; apply find_grid_indices_no_throw|].
  intros fr cr fc cc Rf Rc Cf Cc.
  assert (B : INT_MIN <= 0) by (unfold INT_MIN; lia).
  pose proof (floor_int_le_ceil_int _ _ _ Rf Rc) as Lr.
  pose proof (floor_int_le_ceil_int _ _ _ Cf Cc) as Lc.
  eexists. split.
  - unfold find_grid_indices, clamped_indices. rewrite Rf, Rc, Cf, Cc. simpl bind.
    unfold int_sub. rewrite !to_int_in by lia. simpl bind. reflexivity.
  - cbn [row1 row2 col1 col2]. unfold clamp. lia.
Qed.

(** A query far to the north-west of the 2 x 2 grid: fractional row 60
    and fractional column -91 give the last row and the first column; and
    the query at latitude 1e10, whose conversion is undefined, throws
    nothing. *)
Lemma find_grid_indices_clamps_witness :
  find_grid_indices grid22 100%float (-100)%float
    = Ok {| row1 := 1; col1 := 0; row2 := 1; col2 := 0 |}
  /\ (forall w, find_grid_indices grid22 1e10%float (-8.5)%float <> Throw w).
Proof.
  split.
  - destruct (find_grid_indices_clamps grid22 100%float (-100)%float) as (_ & C).
    + vm_compute. split; discriminate.
    + vm_compute. split; discriminate.
    + destruct (C 60 60 (-91) (-91)) as (ix & E & _ & Last & _ & _ & First).
      * vm_compute. reflexivity.
      * vm_compute. reflexivity.
      * vm_compute. reflexivity.
      * vm_compute. reflexivity.
      * rewrite E. destruct ix as [r1 c1 r2 c2]. cbn [row1 row2 col1 col2] in *.
        destruct Last as [-> ->]; [vm_compute; discriminate|].
        destruct First as [-> ->]; [vm_compute; discriminate|].
        reflexivity.
  - destruct (find_grid_indices_clamps grid22 1e10%float (-8.5)%float) as (NT & _).
    + vm_compute. split; discriminate.
    + vm_compute. split; discriminate.
    + exact NT.
Defined.

(* ================================================================= *)
(** ** Grid points and linearity in binary64 *)

(** C3, as stated, fails in binary64.  On the 4 x 2 grid with latitude
    step 0.1 the coordinates of cell (3, 0) are computed as
    [40 + 3 * 0.1] and [-9 + 0 * 1]; the stored sample is 40, the
    interpolated height is not: the latitude rounds to a fractional row
    just below 3, so rows 2 and 3 are blended. *)
Lemma grid_point_not_exact :
  (lat_step grid42 =? 0)%float = false /\ (lon_step grid42 =? 0)%float = false /\
  0 <= 3 < nrows grid42 /\ 0 <= 0 < ncols grid42 /\
  sample grid42 3 0 = Ok 40%float /\
  find_grid_indices grid42 (lat_min grid42 + of_int 3 * lat_step grid42)%sc
                           (lon_min grid42 + of_int 0 * lon_step grid42)%sc
    = Ok {| row1 := 2; col1 := 0; row2 := 3; col2 := 0 |} /\
  interpolate_geoid_height grid42 (lat_min grid42 + of_int 3 * lat_step grid42)%sc
                                  (lon_min grid42 + of_int 0 * lon_step grid42)%sc
    = Ok 39.999999999999716%float /\
  (39.999999999999716 =? 40)%float = false.
Proof. vm_compute. repeat split; lia || discriminate. Qed.

(** C9, as stated, fails in binary64.  On a 2 x 2 grid with the samples
    0.1 and 0.4 along latitude 40, the longitudes -8.75 and -8.25 lie in
    the same cell and the point half way between them, -8.5, is computed
    without rounding and lies in that cell too.  The three heights returned
    are 0.17500000000000002, 0.32500000000000007 and 0.25: the third is
    neither the blend of the first two computed in binary64 nor their
    blend as real numbers. *)
Lemma linearity_not_exact :
  let lon_a := (-8.75)%float in
  let lon_b := (-8.25)%float in
  let t := 0.5%float in
  let cell := {| row1 := 0; col1 := 0; row2 := 0; col2 := 1 |} in
  (0 <= B2Q t)%Q /\ (B2Q t <= 1)%Q /\
  find_grid_indices grid_tenths 40%float lon_a = Ok cell /\
  find_grid_indices grid_tenths 40%float lon_b = Ok cell /\
  find_grid_indices grid_tenths 40%float (lon_a + t * (lon_b - lon_a))%float = Ok cell /\
  exact_between lon_a lon_b t /\
  exists ha hb ht,
    interpolate_geoid_height grid_tenths 40%float lon_a = Ok ha /\
    interpolate_geoid_height grid_tenths 40%float lon_b = Ok hb /\
    interpolate_geoid_height grid_tenths 40%float (lon_a + t * (lon_b - lon_a))%float = Ok ht /\
    (ht =? (1 - t) * ha + t * hb)%float = false /\
    ~ (B2Q ht == (1 - B2Q t) * B2Q ha + B2Q t * B2Q hb)%Q.
Proof.
  cbv zeta. split; [vm_compute; discriminate|]. split; [vm_compute; discriminate|].
  split; [vm_compute; reflexivity|]. split; [vm_compute; reflexivity|].
  split; [vm_compute; reflexivity|].
  split; [unfold exact_between, exact_op; repeat split; vm_compute; reflexivity|].
  exists 0.17500000000000002%float, 0.32500000000000007%float, 0.25%float.
  split; [vm_compute; reflexivity|]. split; [vm_compute; reflexivity|].
  split; [vm_compute; reflexivity|]. split; [vm_compute; reflexivity|].
  vm_compute. discriminate.
Qed.

(* ================================================================= *)
(** ** The loader *)

Lemma set_nth_length {A : Type} (n : nat) (x : A) (v : list A) :
  List.length (set_nth n x v) = List.length v.
Proof.
  revert n. induction v as [|a v IH]; intros [|n]; simpl; auto.
Qed.

Lemma nth_error_set_nth_eq {A : Type} (n : nat) (x : A) (v : list A) :
  (n < List.length v)%nat -> nth_error (set_nth n x v) n = Some x.
Proof.
  revert n. induction v as [|a v IH]; intros [|n] L; simpl in *; try lia; auto.
  apply IH. lia.
Qed.

Lemma nth_error_set_nth_neq {A : Type} (n k : nat) (x : A) (v : list A) :
  n <> k -> nth_error (set_nth n x v) k = nth_error v k.
Proof.
  revert n k. induction v as [|a v IH]; intros [|n] [|k] D; simpl; auto;
    try contradiction.
Qed.

Lemma vec_set_ok {A : Type} (v v' : list A) (i : Z) (x : A) :
  vec_set v i x = Ok v' ->
  0 <= i < Z.of_nat (List.length v) /\ v' = set_nth (Z.to_nat i) x v.
Proof.
  unfold vec_set. destruct ((0 <=? i) && (i <? Z.of_nat (List.length v))) eqn:B;
    intros E; inversion E; subst.
  apply andb_true_iff in B. destruct B as [B1 B2].
  apply Z.leb_le in B1. apply Z.ltb_lt in B2. auto.
Qed.

Lemma vec_set_in {A : Type} (v : list A) (i : Z) (x : A) :
  0 <= i < Z.of_nat (List.length v) -> vec_set v i x = Ok (set_nth (Z.to_nat i) x v).
Proof.
  intros I. unfold vec_set.
  replace ((0 <=? i) && (i <? Z.of_nat (List.length v))) with true; [reflexivity|].
  symmetry. apply andb_true_iff. rewrite Z.leb_le, Z.ltb_lt. exact I.
Qed.

Lemma vec_at_set_eq {A : Type} (v : list A) (i : Z) (x : A) :
  0 <= i < Z.of_nat (List.length v) -> vec_at (set_nth (Z.to_nat i) x v) i = Ok x.
Proof.
  intros I. apply vec_at_ok. rewrite set_nth_length. split; [exact I|].
  apply nth_error_set_nth_eq. lia.
Qed.

Lemma vec_at_set_neq {A : Type} (v : list A) (i k : Z) (x : A) :
  0 <= i -> 0 <= k -> i <> k -> vec_at (set_nth (Z.to_nat i) x v) k = vec_at v k.
Proof.
  intros Hi Hk D. unfold vec_at. rewrite set_nth_length.
  rewrite nth_error_set_nth_neq by lia. reflexivity.
Qed.

Lemma count_rows_ok (file : stream) (n k : Z) :
  count_rows file n = Ok k -> k = n + Z.of_nat (List.length file).
Proof.
  revert n. induction file as [|l file IH]; simpl; intros n E.
  - inversion E. lia.
  - inv_bind E. apply to_int_ok in E0. destruct E0 as [-> _].
    apply IH in E. lia.
Qed.

Lemma count_rows_in (file : stream) (n : Z) :
  INT_MIN <= n -> n + Z.of_nat (List.length file) <= INT_MAX ->
  count_rows file n = Ok (n + Z.of_nat (List.length file)).
Proof.
  revert n. induction file as [|l file IH]; simpl List.length; intros n Lo Hi.
  - simpl. f_equal. lia.
  - simpl. unfold int_add. rewrite to_int_in by lia. simpl.
    rewrite IH by lia. f_equal. lia.
Qed.

Lemma count_rows_no_throw (file : stream) (n : Z) (w : string) :
  count_rows file n <> Throw w.
Proof.
  revert n. induction file as [|l file IH]; simpl; intros n E; [discriminate|].
  apply bind_throw in E. destruct E as [E|(a & _ & E)].
  - now apply to_int_no_throw in E.
  - now apply IH in E.
Qed.

(** What a completed pass of the row loop leaves in the vector: its length
    is unchanged, every line read is stored in its row, and the rows before
    the first one read are untouched. *)
Lemma read_rows_ok (file : stream) :
  forall (i : Z) (data data' : list float),
    0 <= i ->
    read_rows (List.length file) i 3 file data = Ok data' ->
    List.length data' = List.length data /\
    (forall (k : nat) (line : string),
        nth_error file k = Some line -> row_stored data' (i + Z.of_nat k) line) /\
    (forall n : Z, 0 <= n < 3 * i -> vec_at data' n = vec_at data n).
Proof.
  induction file as [|l file IH]; intros i data data' Hi E.
  - simpl in E. inversion E; subst. split; [reflexivity|]. split.
    + intros [|k] line N; discriminate.
    + reflexivity.
  - simpl in E. destruct (parse_row l) as [[[lon lat] h]|] eqn:P; [|discriminate].
    do 6 inv_bind E.
    apply to_int_ok in E0, E2, E4.
    destruct E0 as [-> _], E2 as [-> _], E4 as [-> _].
    apply vec_set_ok in E1, E3, E5.
    destruct E1 as [I1 ->], E3 as [I3 ->], E5 as [I5 ->].
    rewrite !set_nth_length in *.
    apply IH in E; [|lia]. destruct E as (L & Rows & Pre).
    rewrite !set_nth_length in L.
    split; [exact L|]. split.
    + intros [|k] line N.
      * simpl in N. inversion N; subst line.
        exists lon, lat, h. split; [exact P|].
        rewrite Z.add_0_r.
        rewrite !Pre by lia.
        replace (3 * i) with (i * 3) by lia.
        replace (i * 3 + 1 + 1) with (i * 3 + 2) by lia.
        repeat split.
        -- rewrite !vec_at_set_neq by lia. apply vec_at_set_eq. lia.
        -- rewrite vec_at_set_neq by lia. apply vec_at_set_eq.
           rewrite set_nth_length. lia.
        -- apply vec_at_set_eq. rewrite !set_nth_length. lia.
      * simpl in N. apply Rows in N.
        replace (i + Z.of_nat (S k)) with (i + 1 + Z.of_nat k) by lia. exact N.
    + intros n Hn. rewrite Pre by lia.
      rewrite !vec_at_set_neq by lia. reflexivity.
Qed.

(** The row loop on a file whose rows all fit the vector: it completes when
    every row parses and throws at the first row that does not. *)
Lemma read_rows_run (file : stream) :
  forall (i : Z) (data : list float),
    0 <= i ->
    3 * (i + Z.of_nat (List.length file)) <= Z.of_nat (List.length data) ->
    Z.of_nat (List.length data) <= INT_MAX ->
    ((forall line, In line file -> parse_row line <> None) ->
     exists data', read_rows (List.length file) i 3 file data = Ok data') /\
    ((exists line, In line file /\ parse_row line = None) ->
     read_rows (List.length file) i 3 file data = Throw invalid_format).
Proof.
  assert (B : INT_MIN <= 0 /\ 0 < INT_MAX) by (unfold INT_MIN, INT_MAX; lia).
  induction file as [|l file IH]; intros i data Hi Len Max.
  - split.
    + intros _. exists data. reflexivity.
    + intros (line & [] & _).
  - simpl List.length in Len.
    destruct (parse_row l) as [[[lon lat] h]|] eqn:P.
    + assert (Step : forall d, List.length d = List.length data ->
                read_rows (List.length (l :: file)) i 3 (l :: file) d =
                read_rows (List.length file) (i + 1) 3 file
                  (set_nth (Z.to_nat (i * 3 + 2)) h
                     (set_nth (Z.to_nat (i * 3 + 1)) lat
                        (set_nth (Z.to_nat (i * 3)) lon d)))).
      { intros d Ld. simpl. rewrite P. unfold int_mul, int_add.
        rewrite to_int_in by lia. simpl.
        rewrite vec_set_in by lia. simpl.
        rewrite to_int_in by lia. simpl.
        rewrite vec_set_in by (rewrite set_nth_length; lia). simpl.
        rewrite to_int_in by lia. simpl.
        rewrite vec_set_in by (rewrite !set_nth_length; lia). simpl.
        reflexivity. }
      rewrite Step by reflexivity.
      specialize (IH (i + 1)
                     (set_nth (Z.to_nat (i * 3 + 2)) h
                        (set_nth (Z.to_nat (i * 3 + 1)) lat
                           (set_nth (Z.to_nat (i * 3)) lon data)))).
      rewrite !set_nth_length in IH.
      destruct IH as [IHok IHbad]; try lia.
      split.
      * intros All. apply IHok. intros line In'. apply All. now right.
      * intros (line & [->|In'] & Bad); [congruence|].
        apply IHbad. eauto.
    + split.
      * intros All. exfalso. apply (All l); [now left | exact P].
      * intros _. simpl. rewrite P. reflexivity.
Qed.

Lemma read_rows_throws (left : nat) :
  forall (i ncols : Z) (file : stream) (data : list float) (w : string),
    read_rows left i ncols file data = Throw w -> w = invalid_format.
Proof.
  induction left as [|left IH]; simpl; intros i ncols file data w E; [discriminate|].
  destruct (getline file) as [[line file']|]; [|now inversion E].
  destruct (parse_row line) as [[[lon lat] h]|]; [|now inversion E].
  repeat (apply bind_throw in E; destruct E as [E|(? & E' & E)];
          [ first [ now apply to_int_no_throw in E
                  | unfold vec_set in E;
                    match type of E with (if ?b then _ else _) = _ => destruct b end;
                    discriminate ] | clear E' ]).
  eapply IH. exact E.
Qed.

Lemma geometry_ok (nr nc : Z) (d : list float) (m : GeoidModel float) :
  geometry nr nc d = Ok m ->
  nrows m = nr /\ ncols m = nc /\ data m = d /\
  exists x0 x1 xlon xlat,
    vec_at d 0 = Ok x0 /\ vec_at d 1 = Ok x1 /\
    vec_at d ((nc - 1) * 3) = Ok xlon /\
    vec_at d ((nr - 1) * nc + 1) = Ok xlat /\
    lon_min m = x0 /\ lat_min m = x1 /\
    lon_step m = grid_step xlon x0 nc /\
    lat_step m = grid_step xlat x1 nr.
Proof.
  unfold geometry. intros E. do 9 inv_bind E.
  apply to_int_ok in E2, E3, E5, E6, E7.
  destruct E2 as [-> _], E3 as [-> _], E5 as [-> _], E6 as [-> _], E7 as [-> _].
  inversion E; subst; clear E. simpl.
  repeat split. exists v, v0, v3, v7. repeat split; assumption.
Qed.

Lemma geometry_no_throw (nr nc : Z) (d : list float) (w : string) :
  geometry nr nc d <> Throw w.
Proof.
  unfold geometry. intros E.
  repeat (apply bind_throw in E; destruct E as [E|(? & _ & E)];
          [ first [ now apply to_int_no_throw in E | now apply vec_at_no_throw in E ] |]).
  discriminate.
Qed.

(** The body of [load_geoid_model] once the file is open: a header other
    than the expected one is refused at once; after the expected one the
    column count is 3. *)
Lemma load_open (fs : string -> option string) (filename content : string) :
  fs filename = Some content ->
  load_geoid_model fs filename =
    if negb (String.eqb (header_line content) HEADER) then Throw invalid_format
    else
      nrows <- count_rows (data_lines content) 0 ;;
      size <- int_mul nrows 3 ;;
      data <- read_rows (Z.to_nat nrows) 0 3 (data_lines content)
                (repeat 0%float (Z.to_nat size)) ;;
      geometry nrows 3 data.
Proof.
  intros F. unfold load_geoid_model, header_line, data_lines. rewrite F.
  destruct (split_lines content) as [|line rows]; [reflexivity|].
  simpl getline. cbv iota. cbv beta.
  destruct (String.eqb line HEADER) eqn:H; [|reflexivity].
  apply String.eqb_eq in H. subst line. simpl negb. cbv iota.
  change (count_tabs HEADER 0) with 2.
  reflexivity.
Qed.

Lemma rows_parse_or_not (file : stream) :
  (forall line, In line file -> parse_row line <> None) \/
  (exists line, In line file /\ parse_row line = None).
Proof.
  induction file as [|l file [All|(line & I & Bad)]].
  - left. intros line [].
  - destruct (parse_row l) eqn:P.
    + left. intros line [<-|I]; [congruence | now apply All].
    + right. exists l. split; [now left | exact P].
  - right. exists line. split; [now right | exact Bad].
Qed.

Lemma header_eqb (content : string) :
  negb (String.eqb (header_line content) HEADER) = false <-> header_line content = HEADER.
Proof. rewrite negb_false_iff. apply String.eqb_eq. Qed.

(** C10. Every successful load has exactly three columns: the header it
    accepted is the expected one, which has two tabs.  The vector then has
    three slots per data row, and row [k] holds the three values read from
    data line [k], so every slot is filled. *)
Theorem load_three_columns :
  forall (fs : string -> option string) (filename : string) (m : GeoidModel float),
    load_geoid_model fs filename = Ok m ->
    exists content,
      fs filename = Some content /\
      header_line content = HEADER /\
      count_tabs (header_line content) 0 = 2 /\
      ncols m = 3 /\
      nrows m = Z.of_nat (List.length (data_lines content)) /\
      Z.of_nat (List.length (data m)) = 3 * nrows m /\
      forall (k : nat) (line : string),
        nth_error (data_lines content) k = Some line ->
        row_stored (data m) (Z.of_nat k) line.
Proof.
  intros fs filename m E.
  destruct (fs filename) as [content|] eqn:F.
  2:{ unfold load_geoid_model in E. rewrite F in E. discriminate. }
  rewrite (load_open fs filename content F) in E.
  destruct (negb (String.eqb (header_line content) HEADER)) eqn:H; [discriminate|].
  apply header_eqb in H.
  do 3 inv_bind E.
  apply count_rows_ok in E0. simpl in E0.
  apply to_int_ok in E1. destruct E1 as [-> _].
  subst v. rewrite Nat2Z.id in E2.
  apply read_rows_ok in E2; [|lia]. destruct E2 as (L & Rows & _).
  rewrite repeat_length in L.
  apply geometry_ok in E. destruct E as (Nr & Nc & D & _).
  exists content. rewrite H, Nr, Nc, D.
  repeat split; try reflexivity.
  - lia.
  - intros k line N. apply Rows in N. exact N.
Qed.

Lemma load_three_columns_witness :
  exists m,
    load_geoid_model (one_file geod_name file_three_rows) geod_name = Ok m /\
    ncols m = 3 /\ nrows m = 3 /\ List.length (data m) = 9%nat.
Proof.
  eexists. split; [vm_compute; reflexivity|].
  destruct (load_three_columns (one_file geod_name file_three_rows) geod_name _ eq_refl)
    as (content & F & _ & _ & Nc & _).
  split; [exact Nc | split; reflexivity].
Defined.

(** C7. After a successful load with at least two rows and two columns,
    [lon_min] and [lat_min] are slots 0 and 1 of the vector, the first two
    values of the first data line; [lon_step] is slot [(ncols - 1) * 3]
    minus slot 0 over [ncols - 1]; [lat_step] is slot
    [(nrows - 1) * ncols + 1] minus slot 1 over [nrows - 1]. *)
Theorem load_geometry :
  forall (fs : string -> option string) (filename : string) (m : GeoidModel float),
    load_geoid_model fs filename = Ok m ->
    2 <= nrows m -> 2 <= ncols m ->
    exists x0 x1 xlon xlat,
      vec_at (data m) 0 = Ok x0 /\
      vec_at (data m) 1 = Ok x1 /\
      vec_at (data m) ((ncols m - 1) * 3) = Ok xlon /\
      vec_at (data m) ((nrows m - 1) * ncols m + 1) = Ok xlat /\
      lon_min m = x0 /\
      lat_min m = x1 /\
      lon_step m = ((xlon - x0) / Double.of_int (ncols m - 1))%float /\
      lat_step m = ((xlat - x1) / Double.of_int (nrows m - 1))%float /\
      exists content line h,
        fs filename = Some content /\
        nth_error (data_lines content) 0 = Some line /\
        parse_row line = Some (x0, x1, h).
Proof.
  intros fs filename m E Hr Hc.
  destruct (load_three_columns fs filename m E) as (content & F & _ & _ & _ & Nr & _ & Rows).
  rewrite (load_open fs filename content F) in E.
  destruct (negb (String.eqb (header_line content) HEADER)); [discriminate|].
  do 3 inv_bind E.
  apply geometry_ok in E.
  destruct E as (Er & Ec & Ed & x0 & x1 & xlon & xlat & A0 & A1 & A2 & A3 & M0 & M1 & S0 & S1).
  rewrite <- Ed in A0, A1, A2, A3.
  exists x0, x1, xlon, xlat. rewrite Er, Ec.
  repeat (split; [assumption|]).
  destruct (data_lines content) as [|line rows] eqn:DL; [simpl in Nr; lia|].
  destruct (Rows 0%nat line eq_refl) as (lon & lat & h & P & B0 & B1 & _).
  simpl in B0, B1. rewrite A0 in B0. rewrite A1 in B1.
  inversion B0; inversion B1; subst lon lat.
  exists content, line, h.
  split; [exact F|]. split; [rewrite DL; reflexivity | exact P].
Qed.

Lemma load_geometry_witness :
  exists m,
    load_geoid_model (one_file geod_name file_three_rows) geod_name = Ok m /\
    lon_min m = (-9.5)%float /\ lat_min m = 36.25%float /\
    lon_step m = 0.25%float /\ lat_step m = 0.25%float.
Proof.
  eexists. split; [vm_compute; reflexivity|].
  destruct (load_geometry (one_file geod_name file_three_rows) geod_name _ eq_refl)
    as (x0 & x1 & xlon & xlat & A0 & A1 & A2 & A3 & M0 & M1 & S0 & S1 & _);
    [simpl; lia | simpl; lia |].
  vm_compute in A0, A1, A2, A3.
  inversion A0; inversion A1; inversion A2; inversion A3; subst.
  repeat split; vm_compute; reflexivity.
Defined.

(* ----------------------------------------------------------------- *)
(** *** Format errors *)

(** C5, as stated, fails: a row with a fourth token is not "exactly three
    floating-point tokens", yet the file loads; the extraction reads three
    values and never looks at the rest of the line.  Nor need the values be
    separate tokens: an extraction stops where the text of a number stops,
    so the two tokens "1.5.25" and "2" are read as 1.5, .25 and 2. *)
Lemma extra_token_accepted :
  (header_line file_extra_token = HEADER /\
   In "1 2 3 4" (data_lines file_extra_token) /\
   tokens "1 2 3 4" = ["1"; "2"; "3"; "4"] /\
   exactly_three_floats "1 2 3 4" = false /\
   parse_row "1 2 3 4" = Some (1, 2, 3)%float /\
   load_geoid_model (one_file geod_name file_extra_token) geod_name
     = Ok (mkGeoidModel 3 3 2%float 1%float 3.5%float 3.5%float
             [1; 2; 3; 5; 6; 7; 8; 9; 10]%float) /\
   load_geoid_model (one_file geod_name file_extra_token) geod_name
     <> Throw invalid_format)
  /\
  (header_line file_unseparated = HEADER /\
   In "1.5.25 2" (data_lines file_unseparated) /\
   tokens "1.5.25 2" = ["1.5.25"; "2"] /\
   exactly_three_floats "1.5.25 2" = false /\
   parse_row "1.5.25 2" = Some (1.5, 0.25, 2)%float /\
   load_geoid_model (one_file geod_name file_unseparated) geod_name
     = Ok (mkGeoidModel 3 3 0.25%float 1.5%float 4.375%float 3.25%float
             [1.5; 0.25; 2; 5; 6; 7; 8; 9; 10]%float)).
Proof.
  split.
  - repeat split; try (vm_compute; reflexivity).
    + vm_compute. auto.
    + vm_compute. discriminate.
  - repeat split; try (vm_compute; reflexivity).
    vm_compute. auto.
Qed.

Lemma parse_row_none_iff (row : string) :
  parse_row row = None <-> ~ reads_three_numbers row.
Proof.
  unfold parse_row, reads_three_numbers. split.
  - intros N (lon & lat & h & s1 & s2 & s3 & E1 & E2 & E3).
    rewrite E1, E2, E3 in N. discriminate.
  - intros N.
    destruct (Extract.double row) as [[lon s1]|] eqn:E1; [|reflexivity].
    destruct (Extract.double s1) as [[lat s2]|] eqn:E2; [|reflexivity].
    destruct (Extract.double s2) as [[h s3]|] eqn:E3; [|reflexivity].
    exfalso. apply N. exists lon, lat, h, s1, s2, s3. auto.
Qed.

(** C5, amended. For a file that opens and whose rows fit [int] index
    arithmetic, the load throws "Invalid file format" exactly when the
    header line is not the expected text or there is a data line from which
    three doubles cannot be extracted one after the other (each extraction
    skips white space and reads a number as far as its text goes; the
    numbers need not be separated, and what follows the third is ignored).
    In particular a wrong header is refused, and so is a line on which
    nothing but white space follows the second number. *)
Theorem load_format_error :
  forall (fs : string -> option string) (filename content : string),
    fs filename = Some content ->
    3 * Z.of_nat (List.length (data_lines content)) <= INT_MAX ->
    (load_geoid_model fs filename = Throw invalid_format <->
       header_line content <> HEADER \/
       exists row, In row (data_lines content) /\ ~ reads_three_numbers row)
    /\ (header_line content <> HEADER ->
        load_geoid_model fs filename = Throw invalid_format)
    /\ (forall (row s1 s2 : string) (a b : float),
          In row (data_lines content) ->
          header_line content = HEADER ->
          Extract.double row = Some (a, s1) ->
          Extract.double s1 = Some (b, s2) ->
          Extract.skip_ws s2 = EmptyString ->
          ~ reads_three_numbers row /\
          load_geoid_model fs filename = Throw invalid_format).
Proof.
  intros fs filename content F Fit.
  assert (B : INT_MIN <= 0 /\ 0 < INT_MAX) by (unfold INT_MIN, INT_MAX; lia).
  assert (Bad : header_line content <> HEADER ->
                load_geoid_model fs filename = Throw invalid_format).
  { intros H. rewrite (load_open fs filename content F).
    destruct (negb (String.eqb (header_line content) HEADER)) eqn:E; [reflexivity|].
    apply header_eqb in E. contradiction. }
  assert (Run : header_line content = HEADER ->
                load_geoid_model fs filename =
                (data <- read_rows (List.length (data_lines content)) 0 3 (data_lines content)
                           (repeat 0%float (Z.to_nat (Z.of_nat (List.length (data_lines content)) * 3))) ;;
                 geometry (Z.of_nat (List.length (data_lines content))) 3 data)).
  { intros H. rewrite (load_open fs filename content F).
    apply header_eqb in H. rewrite H.
    rewrite count_rows_in by lia. simpl bind.
    unfold int_mul. rewrite to_int_in by lia. simpl bind.
    rewrite Nat2Z.id. reflexivity. }
  assert (Row : header_line content = HEADER ->
                (exists row, In row (data_lines content) /\ parse_row row = None) ->
                load_geoid_model fs filename = Throw invalid_format).
  { intros H Ex. rewrite (Run H).
    destruct (read_rows_run (data_lines content) 0
                (repeat 0%float (Z.to_nat (Z.of_nat (List.length (data_lines content)) * 3))))
      as [_ T]; try (rewrite ?repeat_length; lia).
    rewrite (T Ex). reflexivity. }
  split; [|split].
  - split.
    + intros E.
      destruct (String.eqb (header_line content) HEADER) eqn:H.
      * apply String.eqb_eq in H. right.
        destruct (rows_parse_or_not (data_lines content)) as [All|(row & I & N)].
        2:{ exists row. split; [exact I | now apply parse_row_none_iff]. }
        exfalso. rewrite (Run H) in E.
        destruct (read_rows_run (data_lines content) 0
                    (repeat 0%float (Z.to_nat (Z.of_nat (List.length (data_lines content)) * 3))))
          as [O _]; try (rewrite ?repeat_length; lia).
        destruct (O All) as (d & Ed). rewrite Ed in E. simpl in E.
        now apply geometry_no_throw in E.
      * left. intros H'. rewrite H' in H. rewrite String.eqb_refl in H. discriminate.
    + intros [H|(row & I & N)]; [now apply Bad|].
      apply parse_row_none_iff in N.
      destruct (String.eqb (header_line content) HEADER) eqn:H.
      * apply String.eqb_eq in H. apply Row; eauto.
      * apply Bad. intros H'. rewrite H' in H. rewrite String.eqb_refl in H. discriminate.
  - exact Bad.
  - intros row s1 s2 a b I H Ea Eb Ws.
    assert (N : parse_row row = None).
    { unfold parse_row. rewrite Ea, Eb. unfold Extract.double. rewrite Ws. reflexivity. }
    split; [now apply parse_row_none_iff|].
    apply (Row H). exists row. split; [exact I | exact N].
Qed.

(** A file whose second data line has two numbers only is refused, and so
    is one whose header has spaces for tabs. *)
Lemma load_format_error_witness :
  load_geoid_model (one_file geod_name file_two_tokens) geod_name = Throw invalid_format /\
  load_geoid_model (one_file geod_name file_bad_header) geod_name = Throw invalid_format.
Proof.
  split.
  - destruct (load_format_error (one_file geod_name file_two_tokens) geod_name
                file_two_tokens eq_refl) as (_ & _ & Two).
    + vm_compute. discriminate.
    + apply (Two "5 6" " 6" EmptyString 5%float 6%float).
      * vm_compute. auto.
      * vm_compute. reflexivity.
      * vm_compute. reflexivity.
      * vm_compute. reflexivity.
      * reflexivity.
  - destruct (load_format_error (one_file geod_name file_bad_header) geod_name
                file_bad_header eq_refl) as (_ & Bad & _).
    + vm_compute. discriminate.
    + apply Bad. vm_compute. discriminate.
Defined.

(** Every exception of the loader other than "Invalid file format" is the
    failure to open the file. *)
Lemma load_throws (fs : string -> option string) (filename w : string) :
  load_geoid_model fs filename = Throw w ->
  w = invalid_format \/ (fs filename = None /\ w = "Error opening file " ++ filename).
Proof.
  intros E. destruct (fs filename) as [content|] eqn:F.
  - left. rewrite (load_open fs filename content F) in E.
    destruct (negb (String.eqb (header_line content) HEADER)); [now inversion E|].
    apply bind_throw in E. destruct E as [E|(n & _ & E)]; [now apply count_rows_no_throw in E|].
    apply bind_throw in E. destruct E as [E|(sz & _ & E)]; [now apply to_int_no_throw in E|].
    apply bind_throw in E. destruct E as [E|(d & _ & E)].
    + now apply read_rows_throws in E.
    + now apply geometry_no_throw in E.
  - right. unfold load_geoid_model in E. rewrite F in E. inversion E. auto.
Qed.

(** C6. A file with the expected header and no data row is not refused:
    the row loop does not run and the vector stays empty, so the first
    read of the closing block, [model.data[0]], is out of range.  No
    "Invalid file format" is thrown. *)
Theorem load_header_only :
  load_geoid_model (one_file geod_name file_header_only) geod_name = Undefined OutOfRange
  /\ (forall (fs : string -> option string) (filename content : string),
        fs filename = Some content ->
        header_line content = HEADER ->
        data_lines content = [] ->
        load_geoid_model fs filename = Undefined OutOfRange).
Proof.
  split; [vm_compute; reflexivity|].
  intros fs filename content F H D.
  rewrite (load_open fs filename content F).
  apply header_eqb in H. rewrite H, D. reflexivity.
Qed.

(* ================================================================= *)
(** ** binary64 facts *)

Lemma zero_spec : Prim2SF 0%float = S754_zero false.
Proof. reflexivity. Qed.

(** Dividing by zero yields NaN or an infinity, whatever the dividend. *)
Lemma div_zero_not_finite (x : float) : finite (x / 0)%float = false.
Proof.
  unfold finite. rewrite div_spec, zero_spec.
  destruct (Prim2SF x) as [s|s| |s m e]; reflexivity.
Qed.

(** With a count of one the step formula divides by zero: its value is NaN
    or an infinity. *)
Lemma grid_step_one (vmax vmin : float) : finite (grid_step vmax vmin 1) = false.
Proof.
  unfold grid_step. change (Double.of_int (1 - 1)) with 0%float.
  apply div_zero_not_finite.
Qed.

(* ================================================================= *)
(** ** Positions between two positions *)

Lemma in_int_between (x y z : Z) :
  x <= y <= z -> in_int x = true -> in_int z = true -> in_int y = true.
Proof. rewrite !in_int_iff. lia. Qed.

Lemma clamp_between (x y z hi : Z) :
  x <= y <= z -> clamp 0 x hi = clamp 0 z hi -> clamp 0 y hi = clamp 0 x hi.
Proof. unfold clamp. lia. Qed.

(* ================================================================= *)
(** ** Grid points in binary64 *)

Section DoubleGrid.

Local Open Scope float_scope.

Lemma finite_cases (x : float) :
  finite x = true ->
  (exists s, Prim2SF x = S754_zero s) \/ (exists s m e, Prim2SF x = S754_finite s m e).
Proof.
  unfold finite. destruct (Prim2SF x) as [s|s| |s m e]; try discriminate; eauto.
Qed.

Lemma sub_self (x : float) : finite x = true -> Prim2SF (x - x) = S754_zero false.
Proof.
  intros F. rewrite sub_spec.
  destruct (finite_cases x F) as [(s & ->)|(s & m & e & ->)].
  - destruct s; reflexivity.
  - unfold SF64sub, SFsub.
    replace (cond_Zopp s (Z.pos (fst (shl_align m e (Z.min e e)))) -
             cond_Zopp s (Z.pos (fst (shl_align m e (Z.min e e)))))%Z with 0%Z by lia.
    reflexivity.
Qed.

Lemma mul_zero (d z : float) :
  finite d = true -> is_zero_spec (Prim2SF z) -> is_zero_spec (Prim2SF (d * z)).
Proof.
  intros F (sz & Z). rewrite mul_spec, Z.
  destruct (finite_cases d F) as [(s & ->)|(s & m & e & ->)]; simpl; eexists; reflexivity.
Qed.

Lemma add_zero (x z : float) :
  finite x = true -> is_zero_spec (Prim2SF z) -> same (x + z) x.
Proof.
  intros F (sz & Z). unfold same. rewrite add_spec, Z.
  destruct (finite_cases x F) as [(s & ->)|(s & m & e & ->)].
  - right. split; [|eexists; reflexivity].
    destruct s, sz; simpl; eexists; reflexivity.
  - left. reflexivity.
Qed.

Lemma same_finite (x y : float) : same x y -> finite y = true -> finite x = true.
Proof.
  unfold finite. intros [E|((s & E) & _)] F; rewrite E; [exact F | reflexivity].
Qed.

Lemma same_trans (x y z : float) : same x y -> same y z -> same x z.
Proof.
  unfold same. intros [E1|[Zx Zy]] [E2|[Zy' Zz]].
  - left. congruence.
  - right. split; [rewrite E1|]; assumption.
  - right. split; [|rewrite <- E2]; assumption.
  - right. split; assumption.
Qed.

(** On finite numbers [same] is the comparison [==]. *)
Lemma same_eqb (x y : float) : same x y -> finite y = true -> (x =? y) = true.
Proof.
  intros S F. rewrite eqb_spec.
  destruct S as [E|((s & Ex) & (s' & Ey))].
  - rewrite E. destruct (finite_cases y F) as [(s & ->)|(s & m & e & ->)].
    + reflexivity.
    + unfold SFeqb, SFcompare.
      rewrite Z.compare_refl, Pos.compare_cont_refl.
      destruct s; reflexivity.
  - rewrite Ex, Ey. reflexivity.
Qed.

(** One interpolation step between a sample and itself gives the sample
    back, whatever the finite weight. *)
Lemma blend_self (x d : float) :
  finite x = true -> finite d = true -> same (x + d * (x - x)) x.
Proof.
  intros Fx Fd. apply add_zero; [exact Fx|].
  apply mul_zero; [exact Fd|].
  exists false. now apply sub_self.
Qed.

(** C3, amended. In binary64 a query returns the stored sample of cell
    [(r, c)] when the position [find_grid_indices] computes for it is
    that cell exactly, that is, when the fractional row rounds down and
    up to [r] and the fractional column to [c], and the sample and the
    two offsets within the cell are finite.  The result compares equal to
    the sample. *)
Theorem interpolate_at_grid_point :
  forall (model : GeoidModel float) (lat lon : float) (r c : Z) (x : float),
    well_formed model ->
    (0 <= r < nrows model)%Z -> (0 <= c < ncols model)%Z ->
    sample model r c = Ok x ->
    finite x = true ->
    floor_int ((lat - lat_min model) / lat_step model)%sc = Ok r ->
    ceil_int ((lat - lat_min model) / lat_step model)%sc = Ok r ->
    floor_int ((lon - lon_min model) / lon_step model)%sc = Ok c ->
    ceil_int ((lon - lon_min model) / lon_step model)%sc = Ok c ->
    finite ((lat - lat_min model - of_int r * lat_step model) / lat_step model)%sc = true ->
    finite ((lon - lon_min model - of_int c * lon_step model) / lon_step model)%sc = true ->
    exists h,
      interpolate_geoid_height model lat lon = Ok h /\ (h =? x) = true.
Proof.
  intros model lat lon r c x (Nr & Nc & Fit & Len) Hr Hc Sx Fx Rf Rc Cf Cc Flat Flon.
  assert (B : (INT_MIN <= 0 /\ nrows model <= INT_MAX /\ ncols model <= INT_MAX)%Z).
  { unfold INT_MIN, INT_MAX in *. nia. }
  assert (Ix : find_grid_indices model lat lon
               = Ok {| row1 := r; col1 := c; row2 := r; col2 := c |}).
  { unfold find_grid_indices, clamped_indices. rewrite Rf, Rc, Cf, Cc. simpl bind.
    unfold int_sub. rewrite !to_int_in by lia. simpl bind.
    rewrite !clamp_inside by lia. reflexivity. }
  unfold interpolate_geoid_height. rewrite Ix. simpl bind.
  cbn [row1 row2 col1 col2]. rewrite Sx. simpl bind.
  eexists. split; [reflexivity|].
  cbn [radd rsub rmul rdiv of_int double_scalar] in *.
  set (dlat := (lat - lat_min model - Double.of_int r * lat_step model) / lat_step model) in *.
  set (dlon := (lon - lon_min model - Double.of_int c * lon_step model) / lon_step model) in *.
  assert (S1 : same (x + dlon * (x - x)) x) by (apply blend_self; assumption).
  apply same_eqb; [|exact Fx].
  apply same_trans with (2 := S1).
  apply blend_self; [|exact Flat].
  apply (same_finite _ _ S1 Fx).
Qed.

(** At latitude 41 and longitude -8 the 2 x 2 grid is asked for its cell
    (1, 1) and answers with the sample 49. *)
Lemma interpolate_at_grid_point_witness :
  exists h, interpolate_geoid_height grid22 41 (-8) = Ok h /\ (h =? 49) = true.
Proof.
  apply (interpolate_at_grid_point grid22 41 (-8) 1 1 49).
  - unfold well_formed. vm_compute. repeat split; discriminate.
  - vm_compute. split; [discriminate | reflexivity].
  - vm_compute. split; [discriminate | reflexivity].
  - vm_compute. reflexivity.
  - vm_compute. reflexivity.
  - vm_compute. reflexivity.
  - vm_compute. reflexivity.
  - vm_compute. reflexivity.
  - vm_compute. reflexivity.
  - vm_compute. reflexivity.
  - vm_compute. reflexivity.
Defined.

End DoubleGrid.


(* ================================================================= *)
(** ** More on the loader *)

(** What a load that returns a model went through. *)
Lemma load_inversion (fs : string -> option string) (filename : string) (m : GeoidModel float) :
  load_geoid_model fs filename = Ok m ->
  exists content,
    fs filename = Some content /\
    header_line content = HEADER /\
    nrows m = Z.of_nat (List.length (data_lines content)) /\
    ncols m = 3 /\
    Z.of_nat (List.length (data m)) = 3 * nrows m /\
    3 * nrows m <= INT_MAX /\
    (forall (k : nat) (line : string),
        nth_error (data_lines content) k = Some line ->
        row_stored (data m) (Z.of_nat k) line) /\
    geometry (nrows m) 3 (data m) = Ok m.
Proof.
  intros E.
  destruct (fs filename) as [content|] eqn:F.
  2:{ unfold load_geoid_model in E. rewrite F in E. discriminate. }
  rewrite (load_open fs filename content F) in E.
  destruct (negb (String.eqb (header_line content) HEADER)) eqn:H; [discriminate|].
  apply header_eqb in H.
  do 3 inv_bind E.
  apply count_rows_ok in E0. simpl in E0.
  apply to_int_ok in E1. destruct E1 as [-> Fit].
  subst v. rewrite Nat2Z.id in E2.
  apply read_rows_ok in E2; [|lia]. destruct E2 as (L & Rows & _).
  rewrite repeat_length in L.
  pose proof (geometry_ok _ _ _ _ E) as (Nr & Nc & D & _).
  exists content. rewrite Nr, Nc, D.
  split; [reflexivity|]. split; [exact H|]. split; [reflexivity|].
  split; [reflexivity|]. split; [lia|]. split; [lia|]. split.
  - intros k line N. apply Rows in N. exact N.
  - exact E.
Qed.

(** The closing block on a full vector of at least three rows. *)
Lemma geometry_in (n : Z) (d : list float) :
  3 <= n -> 3 * n <= INT_MAX -> Z.of_nat (List.length d) = 3 * n ->
  exists m, geometry n 3 d = Ok m.
Proof.
  intros N Fit L.
  assert (B : INT_MIN <= 0 /\ 0 < INT_MAX) by (unfold INT_MIN, INT_MAX; lia).
  destruct (vec_at_in d 0) as (x0 & E0); [lia|].
  destruct (vec_at_in d 1) as (x1 & E1); [lia|].
  destruct (vec_at_in d ((3 - 1) * 3)) as (x2 & E2); [lia|].
  destruct (vec_at_in d ((n - 1) * 3 + 1)) as (x3 & E3); [lia|].
  unfold geometry. rewrite E0, E1. simpl bind.
  unfold int_sub, int_mul, int_add.
  change ((3 - 1) * 3) with 6 in E2.
  repeat (first [rewrite to_int_in by lia | rewrite E2 | rewrite E3]; simpl bind).
  eexists. reflexivity.
Qed.

(** The closing block on a full vector of fewer than three rows reads
    slot 6 (or slot 0) out of range. *)
Lemma geometry_short (n : Z) (d : list float) :
  0 <= n < 3 -> Z.of_nat (List.length d) = 3 * n ->
  geometry n 3 d = Undefined OutOfRange.
Proof.
  intros N L. unfold geometry.
  destruct (Z.eq_dec n 0) as [->|NZ].
  - destruct d; [reflexivity | simpl in L; lia].
  - destruct (vec_at_in d 0) as (x0 & E0); [lia|].
    destruct (vec_at_in d 1) as (x1 & E1); [lia|].
    rewrite E0, E1. simpl bind.
    unfold vec_at at 1.
    replace ((0 <=? 6) && (6 <? Z.of_nat (List.length d))) with false; [reflexivity|].
    symmetry. apply andb_false_iff. right. apply Z.ltb_ge. lia.
Qed.

(** The loader once the header is accepted and the rows fit [int]. *)
Lemma load_rows (fs : string -> option string) (filename content : string) :
  fs filename = Some content ->
  header_line content = HEADER ->
  3 * Z.of_nat (List.length (data_lines content)) <= INT_MAX ->
  load_geoid_model fs filename =
    (data <- read_rows (List.length (data_lines content)) 0 3 (data_lines content)
               (repeat 0%float (Z.to_nat (Z.of_nat (List.length (data_lines content)) * 3))) ;;
     geometry (Z.of_nat (List.length (data_lines content))) 3 data).
Proof.
  intros F H Fit.
  assert (B : INT_MIN <= 0 /\ 0 < INT_MAX) by (unfold INT_MIN, INT_MAX; lia).
  rewrite (load_open fs filename content F).
  apply header_eqb in H. rewrite H.
  rewrite count_rows_in by lia. simpl bind.
  unfold int_mul. rewrite to_int_in by lia. simpl bind.
  rewrite Nat2Z.id. reflexivity.
Qed.

(** The row loop completes on rows that all parse, and leaves the vector
    its length. *)
Lemma read_rows_all (file : stream) :
  3 * Z.of_nat (List.length file) <= INT_MAX ->
  (forall line, In line file -> parse_row line <> None) ->
  exists d,
    read_rows (List.length file) 0 3 file
      (repeat 0%float (Z.to_nat (Z.of_nat (List.length file) * 3))) = Ok d /\
    Z.of_nat (List.length d) = 3 * Z.of_nat (List.length file).
Proof.
  intros Fit All.
  destruct (read_rows_run file 0 (repeat 0%float (Z.to_nat (Z.of_nat (List.length file) * 3))))
    as [O _]; try (rewrite ?repeat_length; lia).
  destruct (O All) as (d & E). exists d. split; [exact E|].
  apply read_rows_ok in E; [|lia]. destruct E as (L & _).
  rewrite L, repeat_length. lia.
Qed.

(** X1. The loader throws "Error opening file" followed by the name exactly
    when the file cannot be opened, and it never throws anything but that
    and "Invalid file format". *)
Theorem load_opening_error :
  forall (fs : string -> option string) (filename : string),
    (fs filename = None <->
     load_geoid_model fs filename = Throw ("Error opening file " ++ filename)) /\
    (forall w, load_geoid_model fs filename = Throw w ->
               w = invalid_format \/ w = "Error opening file " ++ filename).
Proof.
  intros fs filename. split.
  - split.
    + intros N. unfold load_geoid_model. rewrite N. reflexivity.
    + intros E. destruct (load_throws _ _ _ E) as [I|[N _]]; [|exact N].
      simpl in I. unfold invalid_format in I. discriminate.
  - intros w E. destruct (load_throws _ _ _ E) as [I|[_ I]]; auto.
Qed.

(** X2. A file that opens loads into a model exactly when its first line
    is the expected header, every other line begins with three numbers,
    there are at least three such lines, and three times their number fits
    an [int]. *)
Theorem load_succeeds_iff :
  forall (fs : string -> option string) (filename content : string),
    fs filename = Some content ->
    ((exists m, load_geoid_model fs filename = Ok m) <->
     header_line content = HEADER /\
     (forall row, In row (data_lines content) -> parse_row row <> None) /\
     3 <= Z.of_nat (List.length (data_lines content)) /\
     3 * Z.of_nat (List.length (data_lines content)) <= INT_MAX).
Proof.
  intros fs filename content F. split.
  - intros (m & E).
    destruct (load_inversion fs filename m E)
      as (content' & F' & H & Nr & Nc & L & Fit & Rows & G).
    rewrite F in F'. inversion F'; subst content'.
    split; [exact H|]. split; [|split].
    + intros row I. apply In_nth_error in I. destruct I as (k & N).
      destruct (Rows k row N) as (lon & lat & h & P & _). congruence.
    + apply geometry_ok in G.
      destruct G as (_ & _ & _ & x0 & x1 & xlon & xlat & _ & _ & A & _).
      apply vec_at_ok in A. lia.
    + lia.
  - intros (H & All & N & Fit).
    rewrite (load_rows fs filename content F H Fit).
    destruct (read_rows_all (data_lines content) Fit All) as (d & E & L).
    rewrite E. simpl bind. apply geometry_in; assumption.
Qed.

Lemma load_succeeds_iff_witness :
  exists m, load_geoid_model (one_file geod_name file_three_rows) geod_name = Ok m.
Proof.
  apply (load_succeeds_iff (one_file geod_name file_three_rows) geod_name
           file_three_rows eq_refl).
  split; [vm_compute; reflexivity|]. split; [|split].
  - intros row I. vm_compute in I.
    destruct I as [<-|[<-|[<-|[]]]]; vm_compute; discriminate.
  - vm_compute. discriminate.
  - vm_compute. discriminate.
Defined.

(** X3. With the expected header and fewer than three data lines, all of
    them well formed, the load is undefined: the closing block reads slot
    6 of a vector of at most six slots (slot 0 of none when there is no
    line at all).  Nothing is thrown. *)
Theorem load_few_rows_undefined :
  forall (fs : string -> option string) (filename content : string),
    fs filename = Some content ->
    header_line content = HEADER ->
    (forall row, In row (data_lines content) -> parse_row row <> None) ->
    (List.length (data_lines content) < 3)%nat ->
    load_geoid_model fs filename = Undefined OutOfRange.
Proof.
  intros fs filename content F H All N.
  assert (Fit : 3 * Z.of_nat (List.length (data_lines content)) <= INT_MAX).
  { unfold INT_MAX. lia. }
  rewrite (load_rows fs filename content F H Fit).
  destruct (read_rows_all (data_lines content) Fit All) as (d & E & L).
  rewrite E. simpl bind. apply geometry_short; lia.
Qed.

Lemma load_few_rows_undefined_witness :
  load_geoid_model (one_file geod_name file_two_rows) geod_name = Undefined OutOfRange.
Proof.
  apply (load_few_rows_undefined (one_file geod_name file_two_rows) geod_name
           file_two_rows eq_refl).
  - vm_compute. reflexivity.
  - intros row I. vm_compute in I.
    destruct I as [<-|[<-|[]]]; vm_compute; discriminate.
  - vm_compute. lia.
Defined.

(** X4. Every model the loader returns is well formed: at least three
    rows, three columns, as many samples as cells, and few enough of them
    for [int] index arithmetic. *)
Theorem load_well_formed :
  forall (fs : string -> option string) (filename : string) (m : GeoidModel float),
    load_geoid_model fs filename = Ok m ->
    well_formed m /\ 3 <= nrows m /\ ncols m = 3.
Proof.
  intros fs filename m E.
  destruct (load_inversion fs filename m E)
    as (content & F & H & Nr & Nc & L & Fit & Rows & G).
  apply geometry_ok in G.
  destruct G as (_ & _ & _ & x0 & x1 & xlon & xlat & _ & _ & A & _).
  apply vec_at_ok in A. unfold well_formed. rewrite Nc. lia.
Qed.

Lemma load_well_formed_witness :
  exists m,
    load_geoid_model (one_file geod_name file_three_rows) geod_name = Ok m /\
    well_formed m.
Proof.
  eexists. split; [vm_compute; reflexivity|].
  apply (load_well_formed (one_file geod_name file_three_rows) geod_name _ eq_refl).
Defined.

Lemma nth_error_in_range {A : Type} (l : list A) (k : nat) :
  (k < List.length l)%nat -> exists x, nth_error l k = Some x.
Proof.
  intros L. destruct (nth_error l k) eqn:N; [eauto|].
  apply nth_error_None in N. lia.
Qed.

(** X5. In terms of the file: the origin of a loaded grid is the longitude
    and latitude of the first data line; the longitude step is half the
    difference between the longitudes of the third and first data lines
    (slot 6 is the third line's longitude), whatever the other lines hold;
    the latitude step is the difference between the latitudes of the last
    and first data lines over the number of lines less one. *)
Theorem load_steps_from_rows :
  forall (fs : string -> option string) (filename : string) (m : GeoidModel float),
    load_geoid_model fs filename = Ok m ->
    exists content first third last lon1 lat1 h1 lon3 lat3 h3 lonn latn hn,
      fs filename = Some content /\
      nth_error (data_lines content) 0 = Some first /\
      nth_error (data_lines content) 2 = Some third /\
      nth_error (data_lines content) (List.length (data_lines content) - 1) = Some last /\
      parse_row first = Some (lon1, lat1, h1) /\
      parse_row third = Some (lon3, lat3, h3) /\
      parse_row last = Some (lonn, latn, hn) /\
      lon_min m = lon1 /\
      lat_min m = lat1 /\
      lon_step m = ((lon3 - lon1) / 2)%float /\
      lat_step m = ((latn - lat1) / Double.of_int (nrows m - 1))%float.
Proof.
  intros fs filename m E.
  destruct (load_inversion fs filename m E)
    as (content & F & H & Nr & Nc & L & Fit & Rows & G).
  apply geometry_ok in G.
  destruct G as (_ & _ & _ & x0 & x1 & xlon & xlat & A0 & A1 & A2 & A3 & M0 & M1 & S0 & S1).
  assert (N3 : (3 <= List.length (data_lines content))%nat).
  { apply vec_at_ok in A2. lia. }
  destruct (nth_error_in_range (data_lines content) 0) as (first & N0); [lia|].
  destruct (nth_error_in_range (data_lines content) 2) as (third & N2); [lia|].
  destruct (nth_error_in_range (data_lines content) (List.length (data_lines content) - 1))
    as (last & Nl); [lia|].
  destruct (Rows _ _ N0) as (lon1 & lat1 & h1 & P1 & B0 & B1 & _).
  destruct (Rows _ _ N2) as (lon3 & lat3 & h3 & P3 & C0 & _).
  destruct (Rows _ _ Nl) as (lonn & latn & hn & Pn & _ & D1 & _).
  simpl in B0, B1, C0.
  change ((3 - 1) * 3) with 6 in A2.
  replace (3 * Z.of_nat (List.length (data_lines content) - 1) + 1)
    with ((nrows m - 1) * 3 + 1) in D1 by lia.
  rewrite A0 in B0. rewrite A1 in B1. rewrite A2 in C0. rewrite A3 in D1.
  injection B0 as <-. injection B1 as <-. injection C0 as <-. injection D1 as <-.
  exists content, first, third, last, x0, x1, h1, xlon, lat3, h3, lonn, xlat, hn.
  repeat (split; [assumption|]). exact S1.
Qed.

Lemma load_steps_from_rows_witness :
  exists m,
    load_geoid_model (one_file geod_name file_three_rows) geod_name = Ok m /\
    lon_step m = ((-9 - -9.5) / 2)%float /\
    lat_step m = ((36.75 - 36.25) / 2)%float.
Proof.
  eexists. split; [vm_compute; reflexivity|].
  destruct (load_steps_from_rows (one_file geod_name file_three_rows) geod_name _ eq_refl)
    as (content & first & third & last & lon1 & lat1 & h1 & lon3 & lat3 & h3
        & lonn & latn & hn & F & N0 & N2 & Nl & P1 & P3 & Pn & _ & _ & S0 & S1).
  inversion F; subst content.
  vm_compute in N0, N2, Nl.
  inversion N0; inversion N2; inversion Nl; subst first third last.
  vm_compute in P1, P3, Pn.
  inversion P1; inversion P3; inversion Pn; subst.
  split; [exact S0 | exact S1].
Defined.

(** X6. What the interpolator reads from a loaded grid: its cell
    [(k, 0)] is the longitude of data line [k], its cell [(k, 1)] the
    latitude and its cell [(k, 2)] the height; the index arithmetic stays
    within [int] and the vector. *)
Theorem load_row_fields :
  forall (fs : string -> option string) (filename : string) (m : GeoidModel float),
    load_geoid_model fs filename = Ok m ->
    exists content,
      fs filename = Some content /\
      forall (k : nat) (line : string) (lon lat h : float),
        nth_error (data_lines content) k = Some line ->
        parse_row line = Some (lon, lat, h) ->
        sample m (Z.of_nat k) 0 = Ok lon /\
        sample m (Z.of_nat k) 1 = Ok lat /\
        sample m (Z.of_nat k) 2 = Ok h.
Proof.
  intros fs filename m E.
  destruct (load_inversion fs filename m E)
    as (content & F & H & Nr & Nc & L & Fit & Rows & G).
  exists content. split; [exact F|].
  intros k line lon lat h N P.
  assert (K : (k < List.length (data_lines content))%nat).
  { apply nth_error_Some. congruence. }
  destruct (Rows k line N) as (lon' & lat' & h' & P' & B0 & B1 & B2).
  rewrite P in P'. inversion P'; subst lon' lat' h'.
  assert (B : INT_MIN <= 0) by (unfold INT_MIN; lia).
  unfold sample, int_mul, int_add. rewrite Nc.
  rewrite to_int_in by lia. simpl bind.
  rewrite !to_int_in by lia. simpl bind.
  replace (Z.of_nat k * 3 + 0) with (3 * Z.of_nat k) by lia.
  replace (Z.of_nat k * 3 + 1) with (3 * Z.of_nat k + 1) by lia.
  replace (Z.of_nat k * 3 + 2) with (3 * Z.of_nat k + 2) by lia.
  auto.
Qed.

Lemma load_row_fields_witness :
  exists m,
    load_geoid_model (one_file geod_name file_three_rows) geod_name = Ok m /\
    sample m 1 0 = Ok (-9.25)%float /\
    sample m 1 1 = Ok 36.5%float /\
    sample m 1 2 = Ok 54.3%float.
Proof.
  eexists. split; [vm_compute; reflexivity|].
  destruct (load_row_fields (one_file geod_name file_three_rows) geod_name _ eq_refl)
    as (content & F & Fields).
  inversion F; subst content.
  apply (Fields 1%nat "-9.25 36.5 54.3"); vm_compute; reflexivity.
Defined.

Lemma split_lines_final_newline (s : string) (c : ascii) :
  c <> newline ->
  split_lines (s ++ String c (String newline EmptyString))
    = split_lines (s ++ String c EmptyString).
Proof.
  intros C. apply Ascii.eqb_neq in C.
  induction s as [|a s IH]; simpl.
  - rewrite C. reflexivity.
  - destruct (Ascii.eqb a newline); rewrite IH; reflexivity.
Qed.

(** X7. The newline after the last line is optional: a file that ends in
    a character other than a newline loads to the same outcome with one
    newline added at its end. *)
Theorem load_final_newline :
  forall (fs fs' : string -> option string) (filename body : string) (c : ascii),
    c <> newline ->
    fs filename = Some (body ++ String c EmptyString) ->
    fs' filename = Some (body ++ String c (String newline EmptyString)) ->
    load_geoid_model fs' filename = load_geoid_model fs filename.
Proof.
  intros fs fs' filename body c C F F'.
  rewrite (load_open fs filename _ F), (load_open fs' filename _ F').
  unfold header_line, data_lines.
  rewrite (split_lines_final_newline body c C). reflexivity.
Qed.

Lemma load_final_newline_witness :
  load_geoid_model
    (one_file geod_name
       (HEADER ++ String newline ("1 2 3" ++ String newline ("4 5 6" ++ String newline
          ("7 8 " ++ String "9" (String newline EmptyString))))))
    geod_name
  = load_geoid_model
      (one_file geod_name
         (HEADER ++ String newline ("1 2 3" ++ String newline ("4 5 6" ++ String newline
            ("7 8 " ++ String "9" EmptyString)))))
      geod_name.
Proof.
  apply (load_final_newline _ _ geod_name
           (HEADER ++ String newline ("1 2 3" ++ String newline ("4 5 6" ++ String newline
              "7 8 ")))
           "9"%char).
  - discriminate.
  - vm_compute. reflexivity.
  - vm_compute. reflexivity.
Defined.

(** X8. An empty line, or one of white space only, among the data lines
    makes the load fail with "Invalid file format"; so a file that ends in
    two newlines is refused. *)
Theorem load_blank_line :
  forall (fs : string -> option string) (filename content row : string),
    fs filename = Some content ->
    header_line content = HEADER ->
    3 * Z.of_nat (List.length (data_lines content)) <= INT_MAX ->
    In row (data_lines content) ->
    Extract.skip_ws row = EmptyString ->
    load_geoid_model fs filename = Throw invalid_format.
Proof.
  intros fs filename content row F H Fit I W.
  rewrite (load_rows fs filename content F H Fit).
  destruct (read_rows_run (data_lines content) 0
              (repeat 0%float (Z.to_nat (Z.of_nat (List.length (data_lines content)) * 3))))
    as [_ T]; try (rewrite ?repeat_length; lia).
  rewrite T; [reflexivity|].
  exists row. split; [exact I|].
  unfold parse_row, Extract.double. rewrite W. reflexivity.
Qed.

Lemma load_blank_line_witness :
  load_geoid_model (one_file geod_name file_blank_line) geod_name = Throw invalid_format.
Proof.
  apply (load_blank_line (one_file geod_name file_blank_line) geod_name
           file_blank_line EmptyString eq_refl).
  - vm_compute. reflexivity.
  - vm_compute. discriminate.
  - vm_compute. auto 10.
  - reflexivity.
Defined.

(* ================================================================= *)
(** ** More on the grid functions in binary64 *)

Lemma SFceil_le_floor_succ (x : spec_float) (lo hi : Z) :
  Double.SFfloor x = Some lo -> Double.SFceil x = Some hi -> hi <= lo + 1.
Proof.
  destruct x as [s|s| |s m e]; simpl; intros L H; inversion L; inversion H; subst.
  - lia.
  - set (a := cond_Zopp s (Z.pos m)).
    destruct (Z.le_gt_cases 0 e) as [P|N].
    + rewrite !Z.shiftl_mul_pow2 by exact P. lia.
    + rewrite !Z.shiftl_div_pow2 by lia.
      assert (D : 0 < 2 ^ (- e)) by (apply Z.pow_pos_nonneg; lia).
      pose proof (Z.div_mod a (2 ^ (- e))) as Qa.
      pose proof (Z.mod_pos_bound a (2 ^ (- e)) D) as Ra.
      pose proof (Z.div_mod (- a) (2 ^ (- e))) as Qn.
      pose proof (Z.mod_pos_bound (- a) (2 ^ (- e)) D) as Rn.
      nia.
Qed.

Lemma ceil_int_le_floor_int_succ (x : float) (lo hi : Z) :
  Double.floor_int x = Ok lo -> Double.ceil_int x = Ok hi -> hi <= lo + 1.
Proof.
  unfold Double.floor_int, Double.ceil_int, Double.cast_int.
  destruct (Double.SFfloor (Prim2SF x)) as [l|] eqn:L; [|discriminate].
  destruct (Double.SFceil (Prim2SF x)) as [h|] eqn:H; [|discriminate].
  destruct (in_int l); [|discriminate]. destruct (in_int h); [|discriminate].
  intros El Eh. inversion El; inversion Eh; subst.
  exact (SFceil_le_floor_succ _ _ _ L H).
Qed.

(** The two conversions either give an [int] or are undefined as a
    conversion; on NaN and the infinities they are undefined. *)
Lemma cast_int_cases (o : option Z) :
  (exists z, Double.cast_int o = Ok z) \/ Double.cast_int o = Undefined FloatToInt.
Proof.
  destruct o as [z|]; simpl; [destruct (in_int z)|]; eauto.
Qed.

Lemma floor_int_not_finite (x : float) :
  finite x = false -> Double.floor_int x = Undefined FloatToInt.
Proof.
  unfold finite, Double.floor_int.
  destruct (Prim2SF x) as [s|s| |s m e]; try discriminate; reflexivity.
Qed.

Lemma div_by_zero_not_finite (x y : float) :
  is_zero_spec (Prim2SF y) -> finite (x / y)%float = false.
Proof.
  intros (sy & Y). unfold finite. rewrite div_spec, Y.
  destruct (Prim2SF x) as [s|s| |s m e]; reflexivity.
Qed.

(** [find_grid_indices] on a fractional row or column that is not a finite
    number. *)
Lemma find_grid_indices_not_finite (model : GeoidModel float) (lat lon : float) :
  finite ((lat - lat_min model) / lat_step model)%float = false \/
  finite ((lon - lon_min model) / lon_step model)%float = false ->
  find_grid_indices model lat lon = Undefined FloatToInt.
Proof.
  intros N. unfold find_grid_indices, clamped_indices.
  cbn [radd rsub rmul rdiv of_int floor_int ceil_int double_scalar].
  destruct N as [N|N].
  - rewrite (floor_int_not_finite _ N). reflexivity.
  - unfold Double.floor_int at 1, Double.ceil_int at 1.
    destruct (cast_int_cases (Double.SFfloor (Prim2SF ((lat - lat_min model) / lat_step model)%float)))
      as [(a & ->)| ->]; [|reflexivity].
    destruct (cast_int_cases (Double.SFceil (Prim2SF ((lat - lat_min model) / lat_step model)%float)))
      as [(b & ->)| ->]; [|reflexivity].
    simpl bind. rewrite (floor_int_not_finite _ N). reflexivity.
Qed.

(** X9. The two row indices [find_grid_indices] returns are equal or
    consecutive, the lower one first, and so are the two column indices:
    the four indices are the corners of one cell, or of a degenerate one. *)
Theorem find_grid_indices_adjacent :
  forall (model : GeoidModel float) (lat lon : float) (ix : indices),
    find_grid_indices model lat lon = Ok ix ->
    row1 ix <= row2 ix <= row1 ix + 1 /\ col1 ix <= col2 ix <= col1 ix + 1.
Proof.
  intros model lat lon ix E. unfold find_grid_indices, clamped_indices in E.
  do 6 inv_bind E. inversion E; subst ix; clear E.
  cbn [row1 row2 col1 col2].
  pose proof (floor_int_le_ceil_int _ _ _ E0 E1).
  pose proof (ceil_int_le_floor_int_succ _ _ _ E0 E1).
  pose proof (floor_int_le_ceil_int _ _ _ E2 E3).
  pose proof (ceil_int_le_floor_int_succ _ _ _ E2 E3).
  unfold clamp. lia.
Qed.

Lemma find_grid_indices_adjacent_witness :
  exists ix,
    find_grid_indices grid42 40.15%float (-8.5)%float = Ok ix /\
    row1 ix <= row2 ix <= row1 ix + 1 /\ col1 ix <= col2 ix <= col1 ix + 1.
Proof.
  eexists. split; [vm_compute; reflexivity|].
  apply (find_grid_indices_adjacent grid42 40.15%float (-8.5)%float).
  vm_compute. reflexivity.
Defined.

(** X10. A grid with a zero latitude or longitude step (of either sign)
    makes every query undefined: the fractional position is a division by
    zero, NaN or infinite, and its conversion to [int] is not defined.  The
    interpolation and the topographic height inherit this. *)
Theorem zero_step_undefined :
  forall (model : GeoidModel float) (lat lon ellipsoid_height : float),
    is_zero_spec (Prim2SF (lat_step model)) \/ is_zero_spec (Prim2SF (lon_step model)) ->
    find_grid_indices model lat lon = Undefined FloatToInt /\
    interpolate_geoid_height model lat lon = Undefined FloatToInt /\
    compute_topographic_height model lat lon ellipsoid_height = Undefined FloatToInt.
Proof.
  intros model lat lon h Z.
  assert (F : find_grid_indices model lat lon = Undefined FloatToInt).
  { apply find_grid_indices_not_finite.
    destruct Z as [Z|Z]; [left|right]; now apply div_by_zero_not_finite. }
  unfold compute_topographic_height, interpolate_geoid_height. rewrite F.
  repeat split.
Qed.

Lemma zero_step_undefined_witness :
  interpolate_geoid_height grid_no_step 40.5%float (-8.5)%float = Undefined FloatToInt.
Proof.
  apply (zero_step_undefined grid_no_step 40.5%float (-8.5)%float 148%float).
  left. exists false. reflexivity.
Defined.

Lemma find_grid_indices_undefined (model : GeoidModel float) (lat lon : float) (u : undefined) :
  1 <= nrows model <= INT_MAX -> 1 <= ncols model <= INT_MAX ->
  find_grid_indices model lat lon = Undefined u -> u = FloatToInt.
Proof.
  intros Hr Hc. assert (B : INT_MIN <= 0) by (unfold INT_MIN; lia).
  unfold find_grid_indices, clamped_indices.
  cbn [radd rsub rmul rdiv of_int floor_int ceil_int double_scalar].
  unfold Double.floor_int, Double.ceil_int.
  repeat match goal with
         | |- context [Double.cast_int ?o] =>
             let a := fresh "a" in
             destruct (cast_int_cases o) as [(a & ->)| ->];
             [simpl bind | intros E; inversion E; reflexivity]
         end.
  unfold int_sub. rewrite !to_int_in by lia. simpl bind. discriminate.
Qed.

Lemma sample_in_range {R : Type} (model : GeoidModel R) (r c : Z) :
  well_formed model ->
  0 <= r <= nrows model - 1 -> 0 <= c <= ncols model - 1 ->
  exists x, sample model r c = Ok x.
Proof.
  intros (Nr & Nc & Fit & Len) Hr Hc.
  assert (B : INT_MIN <= 0) by (unfold INT_MIN; lia).
  unfold sample, int_mul, int_add.
  rewrite to_int_in by nia. simpl bind.
  rewrite to_int_in by nia. simpl bind.
  apply vec_at_in. nia.
Qed.

(** X11. On a well-formed grid the interpolation stays inside the vector:
    it throws nothing, never reads out of range and never overflows its
    index arithmetic; it returns a height whenever [find_grid_indices]
    returns indices, and its only failure is the conversion of the
    fractional position to [int]. *)
Theorem interpolate_memory_safe :
  forall (model : GeoidModel float) (lat lon : float),
    well_formed model ->
    (forall ix, find_grid_indices model lat lon = Ok ix ->
                exists h, interpolate_geoid_height model lat lon = Ok h) /\
    (forall w, interpolate_geoid_height model lat lon <> Throw w) /\
    (forall u, interpolate_geoid_height model lat lon = Undefined u -> u = FloatToInt).
Proof.
  intros model lat lon W.
  assert (Ok_ : forall ix, find_grid_indices model lat lon = Ok ix ->
                           exists h, interpolate_geoid_height model lat lon = Ok h).
  { intros ix E.
    destruct W as (Nr & Nc & Fit & Len).
    destruct (find_grid_indices_clamped model lat lon ix Nr Nc E) as (R1 & R2 & C1 & C2).
    assert (W : well_formed model) by (repeat split; assumption).
    destruct (sample_in_range model (row1 ix) (col1 ix) W R1 C1) as (h11 & S11).
    destruct (sample_in_range model (row1 ix) (col2 ix) W R1 C2) as (h12 & S12).
    destruct (sample_in_range model (row2 ix) (col1 ix) W R2 C1) as (h21 & S21).
    destruct (sample_in_range model (row2 ix) (col2 ix) W R2 C2) as (h22 & S22).
    unfold interpolate_geoid_height. rewrite E. simpl bind.
    rewrite S11, S12, S21, S22. simpl bind. eexists. reflexivity. }
  split; [exact Ok_|].
  destruct (find_grid_indices model lat lon) as [ix|w|u] eqn:E.
  - destruct (Ok_ ix eq_refl) as (h & ->). split; intros; discriminate.
  - now apply find_grid_indices_no_throw in E.
  - assert (U : u = FloatToInt).
    { destruct W as (Nr & Nc & Fit & Len).
      apply (find_grid_indices_undefined model lat lon u); [nia | nia | exact E]. }
    unfold interpolate_geoid_height. rewrite E. simpl bind.
    split; [discriminate|]. intros u' X. inversion X. congruence.
Qed.

Lemma interpolate_memory_safe_witness :
  exists h, interpolate_geoid_height grid42 40.15%float (-8.5)%float = Ok h.
Proof.
  destruct (interpolate_memory_safe grid42 40.15%float (-8.5)%float) as (O & _).
  - unfold well_formed. vm_compute. repeat split; discriminate.
  - apply (O {| row1 := 1; col1 := 0; row2 := 2; col2 := 1 |}). vm_compute. reflexivity.
Defined.

Lemma sample_in_data {R : Type} (model : GeoidModel R) (r c : Z) (x : R) :
  sample model r c = Ok x -> In x (data model).
Proof.
  unfold sample. intros E. do 2 inv_bind E.
  apply vec_at_ok in E. destruct E as [_ N]. now apply nth_error_In in N.
Qed.

(** X12. A constant field is reproduced: on a well-formed grid whose
    samples are all the same finite value, every query for which
    [find_grid_indices] returns indices and whose two offsets within the
    cell are finite gets a height that compares equal to that value. *)
Theorem interpolate_constant_grid :
  forall (model : GeoidModel float) (lat lon : float) (ix : indices) (v : float),
    well_formed model ->
    Forall (fun x => x = v) (data model) ->
    finite v = true ->
    find_grid_indices model lat lon = Ok ix ->
    finite ((lat - lat_min model - of_int (row1 ix) * lat_step model) / lat_step model)%sc = true ->
    finite ((lon - lon_min model - of_int (col1 ix) * lon_step model) / lon_step model)%sc = true ->
    exists h, interpolate_geoid_height model lat lon = Ok h /\ (h =? v)%float = true.
Proof.
  intros model lat lon ix v W All Fv E Flat Flon.
  pose proof W as (Nr & Nc & Fit & Len).
  destruct (find_grid_indices_clamped model lat lon ix Nr Nc E) as (R1 & R2 & C1 & C2).
  rewrite Forall_forall in All.
  assert (S : forall r c, 0 <= r <= nrows model - 1 -> 0 <= c <= ncols model - 1 ->
                          sample model r c = Ok v).
  { intros r c Hr Hc. destruct (sample_in_range model r c W Hr Hc) as (x & Sx).
    rewrite Sx. f_equal. apply All. exact (sample_in_data model r c x Sx). }
  unfold interpolate_geoid_height. rewrite E. simpl bind.
  rewrite !S by assumption. simpl bind.
  eexists. split; [reflexivity|].
  cbn [radd rsub rmul rdiv of_int double_scalar] in *.
  set (dlat := ((lat - lat_min model - Double.of_int (row1 ix) * lat_step model)
                / lat_step model)%float) in *.
  set (dlon := ((lon - lon_min model - Double.of_int (col1 ix) * lon_step model)
                / lon_step model)%float) in *.
  assert (S1 : same (v + dlon * (v - v))%float v) by (apply blend_self; assumption).
  apply same_eqb; [|exact Fv].
  apply same_trans with (2 := S1).
  apply blend_self; [|exact Flat].
  apply (same_finite _ _ S1 Fv).
Qed.

Lemma interpolate_constant_grid_witness :
  exists h,
    interpolate_geoid_height grid_flat 40.07%float (-8.8)%float = Ok h /\
    (h =? 54.5)%float = true.
Proof.
  apply (interpolate_constant_grid grid_flat 40.07%float (-8.8)%float
           {| row1 := 0; col1 := 0; row2 := 1; col2 := 1 |} 54.5%float).
  - unfold well_formed. vm_compute. repeat split; discriminate.
  - repeat constructor.
  - vm_compute. reflexivity.
  - vm_compute. reflexivity.
  - vm_compute. reflexivity.
  - vm_compute. reflexivity.
Defined.

(** X13. Loader and interpolator together: when the first and the third
    data line of a file carry the same (finite) longitude, the grid it
    loads into has a longitude step of zero, and every query on that grid
    is undefined, in [find_grid_indices], in the interpolation and in the
    topographic height. *)
Theorem load_one_meridian_undefined :
  forall (fs : string -> option string) (filename content first third : string)
         (m : GeoidModel float) (lon lat1 h1 lat3 h3 : float),
    load_geoid_model fs filename = Ok m ->
    fs filename = Some content ->
    nth_error (data_lines content) 0 = Some first ->
    nth_error (data_lines content) 2 = Some third ->
    parse_row first = Some (lon, lat1, h1) ->
    parse_row third = Some (lon, lat3, h3) ->
    finite lon = true ->
    Prim2SF (lon_step m) = S754_zero false /\
    forall qlat qlon ellipsoid_height : float,
      find_grid_indices m qlat qlon = Undefined FloatToInt /\
      interpolate_geoid_height m qlat qlon = Undefined FloatToInt /\
      compute_topographic_height m qlat qlon ellipsoid_height = Undefined FloatToInt.
Proof.
  intros fs filename content first third m lon lat1 h1 lat3 h3 E F N0 N2 P1 P3 Fl.
  destruct (load_inversion fs filename m E)
    as (content' & F' & H & Nr & Nc & L & Fit & Rows & G).
  rewrite F in F'. injection F' as <-.
  apply geometry_ok in G.
  destruct G as (_ & _ & _ & x0 & x1 & xlon & xlat & A0 & _ & A2 & _ & _ & _ & S0 & _).
  destruct (Rows _ _ N0) as (a & b & c & P1' & B0 & _).
  destruct (Rows _ _ N2) as (a' & b' & c' & P3' & C0 & _).
  rewrite P1 in P1'. injection P1' as <- <- <-.
  rewrite P3 in P3'. injection P3' as <- <- <-.
  simpl in B0, C0. change ((3 - 1) * 3) with 6 in A2.
  rewrite A0 in B0. injection B0 as ->. rewrite A2 in C0. injection C0 as ->.
  assert (Z : Prim2SF (lon_step m) = S754_zero false).
  { rewrite S0. unfold grid_step. change (Double.of_int (3 - 1)) with 2%float.
    rewrite div_spec, (sub_self lon Fl). reflexivity. }
  split; [exact Z|].
  intros qlat qlon h.
  assert (U : find_grid_indices m qlat qlon = Undefined FloatToInt).
  { apply find_grid_indices_not_finite. right.
    apply div_by_zero_not_finite. exists false. exact Z. }
  unfold compute_topographic_height, interpolate_geoid_height. rewrite U.
  repeat split.
Qed.

Lemma load_one_meridian_undefined_witness :
  exists m,
    load_geoid_model (one_file geod_name file_one_meridian) geod_name = Ok m /\
    Prim2SF (lon_step m) = S754_zero false /\
    interpolate_geoid_height m 36.2%float (-9)%float = Undefined FloatToInt.
Proof.
  eexists. split; [vm_compute; reflexivity|].
  destruct (load_one_meridian_undefined (one_file geod_name file_one_meridian) geod_name
              file_one_meridian "-9 36 54.1" "-9 37 54.4" _
              (-9)%float 36%float 54.1%float 37%float 54.4%float eq_refl)
    as (Z & U).
  - reflexivity.
  - vm_compute. reflexivity.
  - vm_compute. reflexivity.
  - vm_compute. reflexivity.
  - vm_compute. reflexivity.
  - vm_compute. reflexivity.
  - split; [exact Z|]. apply (U 36.2%float (-9)%float 0%float).
Defined.

(** X14. When the two row indices coincide (a query on a grid row, or
    clamped beyond the first or last row), the result is the interpolation
    along that one row: it compares equal to [h11 + dlon * (h12 - h11)]
    and does not depend on the latitude offset, provided that value and
    the offset are finite.  Beyond the northern and southern edges the
    height is thus held, not extrapolated. *)
Theorem interpolate_on_one_row :
  forall (model : GeoidModel float) (lat lon : float) (ix : indices) (h11 h12 : float),
    find_grid_indices model lat lon = Ok ix ->
    row1 ix = row2 ix ->
    sample model (row1 ix) (col1 ix) = Ok h11 ->
    sample model (row1 ix) (col2 ix) = Ok h12 ->
    finite (h11 + (lon - lon_min model - of_int (col1 ix) * lon_step model) / lon_step model
                  * (h12 - h11))%sc = true ->
    finite ((lat - lat_min model - of_int (row1 ix) * lat_step model) / lat_step model)%sc = true ->
    exists h,
      interpolate_geoid_height model lat lon = Ok h /\
      (h =? h11 + (lon - lon_min model - of_int (col1 ix) * lon_step model) / lon_step model
                  * (h12 - h11))%float = true.
Proof.
  intros model lat lon ix h11 h12 E Same S11 S12 F1 Flat.
  unfold interpolate_geoid_height. rewrite E. simpl bind.
  rewrite <- Same. rewrite S11, S12. simpl bind.
  eexists. split; [reflexivity|].
  cbn [radd rsub rmul rdiv of_int double_scalar] in *.
  apply same_eqb; [|exact F1].
  apply blend_self; assumption.
Qed.

(** North of the 2 x 2 grid, at latitude 45, the height at longitude -8.5
    is that of the last row, 48.5. *)
Lemma interpolate_on_one_row_witness :
  exists h,
    interpolate_geoid_height grid22 45%float (-8.5)%float = Ok h /\
    (h =? 48.5)%float = true.
Proof.
  destruct (interpolate_on_one_row grid22 45%float (-8.5)%float
              {| row1 := 1; col1 := 0; row2 := 1; col2 := 1 |} 48%float 49%float)
    as (h & E & Q).
  - vm_compute. reflexivity.
  - reflexivity.
  - vm_compute. reflexivity.
  - vm_compute. reflexivity.
  - vm_compute. reflexivity.
  - vm_compute. reflexivity.
  - exists h. split; [exact E | exact Q].
Defined.

(* ================================================================= *)
(** ** One data row *)


(* ================================================================= *)
(** ** Linearity in binary64 *)

Lemma SF_floor_ceil_Q (x : float) :
  finite x = true ->
  Double.SFfloor (Prim2SF x) = Some (Qfloor (B2Q x)) /\
  Double.SFceil (Prim2SF x) = Some (Qceiling (B2Q x)).
Proof.
  unfold finite, B2Q. destruct (Prim2SF x) as [s|s| |s m e]; try discriminate; intros _.
  - split; reflexivity.
  - unfold SF2Q, Double.SFfloor, Double.SFceil.
    set (a := cond_Zopp s (Z.pos m)).
    destruct (0 <=? e) eqn:E.
    + apply Z.leb_le in E. rewrite Qfloor_Z, Qceiling_Z.
      rewrite !Z.shiftl_mul_pow2 by exact E. split; f_equal; lia.
    + apply Z.leb_gt in E.
      assert (D : 0 < 2 ^ (- e)) by (apply Z.pow_pos_nonneg; lia).
      rewrite !Z.shiftl_div_pow2 by lia.
      unfold Qceiling, Qfloor, Qopp. simpl Qnum. simpl Qden.
      rewrite Z2Pos.id by exact D. split; reflexivity.
Qed.

Lemma floor_int_inv (x : float) (z : Z) :
  Double.floor_int x = Ok z -> finite x = true /\ in_int z = true /\ z = Qfloor (B2Q x).
Proof.
  unfold Double.floor_int. intros E.
  assert (F : finite x = true).
  { unfold finite. destruct (Prim2SF x); try reflexivity; discriminate. }
  destruct (SF_floor_ceil_Q x F) as [Fl _]. rewrite Fl in E. simpl in E.
  destruct (in_int (Qfloor (B2Q x))) eqn:I; inversion E; subst. auto.
Qed.

Lemma ceil_int_inv (x : float) (z : Z) :
  Double.ceil_int x = Ok z -> finite x = true /\ in_int z = true /\ z = Qceiling (B2Q x).
Proof.
  unfold Double.ceil_int. intros E.
  assert (F : finite x = true).
  { unfold finite. destruct (Prim2SF x); try reflexivity; discriminate. }
  destruct (SF_floor_ceil_Q x F) as [_ Ce]. rewrite Ce in E. simpl in E.
  destruct (in_int (Qceiling (B2Q x))) eqn:I; inversion E; subst. auto.
Qed.

Lemma floor_int_intro (x : float) :
  finite x = true -> in_int (Qfloor (B2Q x)) = true ->
  Double.floor_int x = Ok (Qfloor (B2Q x)).
Proof.
  intros F I. unfold Double.floor_int.
  destruct (SF_floor_ceil_Q x F) as [Fl _]. rewrite Fl. simpl. rewrite I. reflexivity.
Qed.

Lemma ceil_int_intro (x : float) :
  finite x = true -> in_int (Qceiling (B2Q x)) = true ->
  Double.ceil_int x = Ok (Qceiling (B2Q x)).
Proof.
  intros F I. unfold Double.ceil_int.
  destruct (SF_floor_ceil_Q x F) as [_ Ce]. rewrite Ce. simpl. rewrite I. reflexivity.
Qed.

(** A fraction [t] of the way from one rational to another lies between
    the two. *)
Lemma Q_between (a b y t : Q) :
  (0 <= t)%Q -> (t <= 1)%Q -> (y == a + t * (b - a))%Q ->
  ((a <= y /\ y <= b) \/ (b <= y /\ y <= a))%Q.
Proof.
  intros T0 T1 E. destruct (Qlt_le_dec b a); [right|left]; split; nra.
Qed.

(** A finite position between two positions with the same clamped index
    has that index too, and its conversion to [int] is defined. *)
Lemma floor_int_between (x y z : float) (hi fx fz : Z) :
  finite y = true ->
  ((B2Q x <= B2Q y /\ B2Q y <= B2Q z) \/ (B2Q z <= B2Q y /\ B2Q y <= B2Q x))%Q ->
  Double.floor_int x = Ok fx -> Double.floor_int z = Ok fz ->
  clamp 0 fx hi = clamp 0 fz hi ->
  exists fy, Double.floor_int y = Ok fy /\ clamp 0 fy hi = clamp 0 fx hi.
Proof.
  intros F O Ex Ez C.
  apply floor_int_inv in Ex, Ez.
  destruct Ex as (_ & Ix & ->), Ez as (_ & Iz & ->).
  exists (Qfloor (B2Q y)).
  destruct O as [[A B]|[A B]]; apply Qfloor_resp_le in A, B.
  - split.
    + apply floor_int_intro; [exact F|].
      apply (in_int_between (Qfloor (B2Q x)) _ (Qfloor (B2Q z))); auto.
    + apply (clamp_between _ _ (Qfloor (B2Q z))); [lia | exact C].
  - split.
    + apply floor_int_intro; [exact F|].
      apply (in_int_between (Qfloor (B2Q z)) _ (Qfloor (B2Q x))); auto.
    + rewrite C. apply (clamp_between _ _ (Qfloor (B2Q x))); [lia | now symmetry].
Qed.

Lemma ceil_int_between (x y z : float) (hi fx fz : Z) :
  finite y = true ->
  ((B2Q x <= B2Q y /\ B2Q y <= B2Q z) \/ (B2Q z <= B2Q y /\ B2Q y <= B2Q x))%Q ->
  Double.ceil_int x = Ok fx -> Double.ceil_int z = Ok fz ->
  clamp 0 fx hi = clamp 0 fz hi ->
  exists fy, Double.ceil_int y = Ok fy /\ clamp 0 fy hi = clamp 0 fx hi.
Proof.
  intros F O Ex Ez C.
  apply ceil_int_inv in Ex, Ez.
  destruct Ex as (_ & Ix & ->), Ez as (_ & Iz & ->).
  exists (Qceiling (B2Q y)).
  destruct O as [[A B]|[A B]]; apply Qceiling_resp_le in A, B.
  - split.
    + apply ceil_int_intro; [exact F|].
      apply (in_int_between (Qceiling (B2Q x)) _ (Qceiling (B2Q z))); auto.
    + apply (clamp_between _ _ (Qceiling (B2Q z))); [lia | exact C].
  - split.
    + apply ceil_int_intro; [exact F|].
      apply (in_int_between (Qceiling (B2Q z)) _ (Qceiling (B2Q x))); auto.
    + rewrite C. apply (clamp_between _ _ (Qceiling (B2Q x))); [lia | now symmetry].
Qed.

Lemma clamped_indices_between_col (model : GeoidModel float) (row x y z : float) (ix : indices) :
  finite y = true ->
  ((B2Q x <= B2Q y /\ B2Q y <= B2Q z) \/ (B2Q z <= B2Q y /\ B2Q y <= B2Q x))%Q ->
  clamped_indices model row x = Ok ix ->
  clamped_indices model row z = Ok ix ->
  clamped_indices model row y = Ok ix.
Proof.
  intros F O Ex Ez. unfold clamped_indices in *.
  cbn [floor_int ceil_int double_scalar] in *.
  do 6 inv_bind Ex. do 6 inv_bind Ez.
  rewrite E in E5. inversion E5; subst v5.
  rewrite E0 in E6. inversion E6; subst v6.
  rewrite E3 in E9. inversion E9; subst v9.
  rewrite E4 in E10. inversion E10; subst v10.
  inversion Ex; subst ix; clear Ex. inversion Ez as [[C1 C2]]; clear Ez.
  destruct (floor_int_between x y z v4 v1 v7 F O E1 E7) as (fy & Fy & Cf); [now symmetry|].
  destruct (ceil_int_between x y z v4 v2 v8 F O E2 E8) as (cy & Cy & Cc); [now symmetry|].
  rewrite E, E0. simpl. rewrite Fy, Cy. simpl. rewrite E3, E4. simpl.
  rewrite Cf, Cc, <- C1, <- C2. reflexivity.
Qed.

Lemma clamped_indices_between_row (model : GeoidModel float) (col x y z : float) (ix : indices) :
  finite y = true ->
  ((B2Q x <= B2Q y /\ B2Q y <= B2Q z) \/ (B2Q z <= B2Q y /\ B2Q y <= B2Q x))%Q ->
  clamped_indices model x col = Ok ix ->
  clamped_indices model z col = Ok ix ->
  clamped_indices model y col = Ok ix.
Proof.
  intros F O Ex Ez. unfold clamped_indices in *.
  cbn [floor_int ceil_int double_scalar] in *.
  do 6 inv_bind Ex. do 6 inv_bind Ez.
  rewrite E1 in E7. inversion E7; subst v7.
  rewrite E2 in E8. inversion E8; subst v8.
  rewrite E3 in E9. inversion E9; subst v9.
  rewrite E4 in E10. inversion E10; subst v10.
  inversion Ex; subst ix; clear Ex. inversion Ez as [[C1 C2]]; clear Ez.
  destruct (floor_int_between x y z v3 v v5 F O E E5) as (fy & Fy & Cf); [now symmetry|].
  destruct (ceil_int_between x y z v3 v0 v6 F O E0 E6) as (cy & Cy & Cc); [now symmetry|].
  rewrite Fy, Cy. simpl. rewrite E1, E2. simpl. rewrite E3, E4. simpl.
  rewrite Cf, Cc, <- C1, <- C2. reflexivity.
Qed.

(** When no operation of a query rounds, the query returns, and the value
    returned stands for the bilinear formula on what its inputs stand
    for. *)
Lemma exact_query_value (model : GeoidModel float) (lat lon : float) (ix : indices)
      (h11 h12 h21 h22 : float) :
  find_grid_indices model lat lon = Ok ix ->
  sample model (row1 ix) (col1 ix) = Ok h11 ->
  sample model (row1 ix) (col2 ix) = Ok h12 ->
  sample model (row2 ix) (col1 ix) = Ok h21 ->
  sample model (row2 ix) (col2 ix) = Ok h22 ->
  exact_query model lat lon ix h11 h12 h21 h22 ->
  exists h, interpolate_geoid_height model lat lon = Ok h /\
    (B2Q h == bilinear_Q (B2Q lat) (B2Q (lat_min model)) (B2Q (lat_step model))
                         (B2Q lon) (B2Q (lon_min model)) (B2Q (lon_step model))
                         (row1 ix) (col1 ix)
                         (B2Q h11) (B2Q h12) (B2Q h21) (B2Q h22))%Q.
Proof.
  intros F S11 S12 S21 S22 (Olat & Olon & Bl).
  unfold interpolate_geoid_height. rewrite F. simpl bind.
  rewrite S11, S12, S21, S22. simpl bind.
  eexists. split; [reflexivity|].
  cbn [radd rsub rmul rdiv of_int double_scalar].
  unfold exact_blend, exact_offset, exact_op in *. cbv zeta in *.
  destruct Bl as ((_ & _ & _ & B1) & (_ & _ & _ & B2) & (_ & _ & _ & B3) &
                  (_ & _ & _ & B4) & (_ & _ & _ & B5) & (_ & _ & _ & B6) &
                  (_ & _ & _ & B7) & (_ & _ & _ & B8) & (_ & _ & _ & B9)).
  destruct Olat as ((_ & _ & _ & A1) & _ & (_ & A3) & (_ & _ & _ & A4) &
                    (_ & _ & _ & A5) & (_ & _ & _ & A6)).
  destruct Olon as ((_ & _ & _ & L1) & _ & (_ & L3) & (_ & _ & _ & L4) &
                    (_ & _ & _ & L5) & (_ & _ & _ & L6)).
  unfold bilinear_Q.
  rewrite B9, B8, B7, B6, B5, B4, B3, B2, B1.
  rewrite A6, A5, A4, A3, A1, L6, L5, L4, L3, L1.
  reflexivity.
Qed.

Lemma exact_offset_position (x x_min step : float) (i : Z) :
  exact_offset x x_min step i ->
  finite ((x - x_min) / step)%float = true /\
  (B2Q ((x - x_min) / step)%float == (B2Q x - B2Q x_min) / B2Q step)%Q.
Proof.
  unfold exact_offset, exact_op. cbv zeta.
  intros ((_ & _ & _ & A1) & (_ & _ & F & A2) & _).
  split; [exact F|]. rewrite A2, A1. reflexivity.
Qed.

Lemma exact_between_value (a b t : float) :
  exact_between a b t ->
  (B2Q (a + t * (b - a))%float == B2Q a + B2Q t * (B2Q b - B2Q a))%Q.
Proof.
  unfold exact_between, exact_op.
  intros ((_ & _ & _ & A1) & (_ & _ & _ & A2) & (_ & _ & _ & A3)).
  rewrite A3, A2, A1. reflexivity.
Qed.

(** A fraction of the way between two fractional positions. *)
Lemma position_between (xa xb xt x_min step t pa pb pt : Q) :
  (~ step == 0 -> 0 <= t -> t <= 1 ->
   xt == xa + t * (xb - xa) ->
   pa == (xa - x_min) / step -> pb == (xb - x_min) / step -> pt == (xt - x_min) / step ->
   (pa <= pt /\ pt <= pb) \/ (pb <= pt /\ pt <= pa))%Q.
Proof.
  intros S T0 T1 Et Ea Eb Ep.
  apply (Q_between pa pb pt t T0 T1).
  rewrite Ep, Ea, Eb, Et. field. exact S.
Qed.

(** The affine relation between three values of the bilinear formula along
    a line of constant latitude, and along one of constant longitude. *)
Lemma bilinear_Q_affine_lon (lat lat_min lat_step lon_a lon_b lon_t lon_min lon_step t : Q)
      (r c : Z) (h11 h12 h21 h22 : Q) :
  (~ lat_step == 0 -> ~ lon_step == 0 ->
   lon_t == lon_a + t * (lon_b - lon_a) ->
   bilinear_Q lat lat_min lat_step lon_t lon_min lon_step r c h11 h12 h21 h22
   == (1 - t) * bilinear_Q lat lat_min lat_step lon_a lon_min lon_step r c h11 h12 h21 h22
      + t * bilinear_Q lat lat_min lat_step lon_b lon_min lon_step r c h11 h12 h21 h22)%Q.
Proof. intros S1 S2 E. unfold bilinear_Q. rewrite E. field. split; assumption. Qed.

Lemma bilinear_Q_affine_lat (lat_a lat_b lat_t lat_min lat_step lon lon_min lon_step t : Q)
      (r c : Z) (h11 h12 h21 h22 : Q) :
  (~ lat_step == 0 -> ~ lon_step == 0 ->
   lat_t == lat_a + t * (lat_b - lat_a) ->
   bilinear_Q lat_t lat_min lat_step lon lon_min lon_step r c h11 h12 h21 h22
   == (1 - t) * bilinear_Q lat_a lat_min lat_step lon lon_min lon_step r c h11 h12 h21 h22
      + t * bilinear_Q lat_b lat_min lat_step lon lon_min lon_step r c h11 h12 h21 h22)%Q.
Proof. intros S1 S2 E. unfold bilinear_Q. rewrite E. field. split; assumption. Qed.

(** C9, as it holds of the program.  For a grid with nonzero steps, a cell
    [ix] with corners [h11], [h12], [h21], [h22], a latitude, two
    longitudes that [find_grid_indices] places in that cell and a fraction
    [t] between 0 and 1: whenever no binary64 operation rounds, neither in
    [lon_a + t * (lon_b - lon_a)] nor in the three queries, the
    intermediate longitude is placed in the same cell, the three queries
    return, and the height at the intermediate longitude is, as a real
    number, [1 - t] times the height at [lon_a] plus [t] times the height
    at [lon_b].  The same holds with the roles of latitude and longitude
    exchanged. *)
Theorem interpolate_affine_when_exact (model : GeoidModel float) (ix : indices)
        (h11 h12 h21 h22 : float) :
  ~ (B2Q (lat_step model) == 0)%Q -> ~ (B2Q (lon_step model) == 0)%Q ->
  sample model (row1 ix) (col1 ix) = Ok h11 ->
  sample model (row1 ix) (col2 ix) = Ok h12 ->
  sample model (row2 ix) (col1 ix) = Ok h21 ->
  sample model (row2 ix) (col2 ix) = Ok h22 ->
  (forall lat lon_a lon_b t,
      (0 <= B2Q t)%Q -> (B2Q t <= 1)%Q ->
      find_grid_indices model lat lon_a = Ok ix ->
      find_grid_indices model lat lon_b = Ok ix ->
      exact_between lon_a lon_b t ->
      exact_query model lat lon_a ix h11 h12 h21 h22 ->
      exact_query model lat lon_b ix h11 h12 h21 h22 ->
      exact_query model lat (lon_a + t * (lon_b - lon_a))%float ix h11 h12 h21 h22 ->
      exists ha hb ht,
        interpolate_geoid_height model lat lon_a = Ok ha /\
        interpolate_geoid_height model lat lon_b = Ok hb /\
        find_grid_indices model lat (lon_a + t * (lon_b - lon_a))%float = Ok ix /\
        interpolate_geoid_height model lat (lon_a + t * (lon_b - lon_a))%float = Ok ht /\
        (B2Q ht == (1 - B2Q t) * B2Q ha + B2Q t * B2Q hb)%Q)
  /\
  (forall lon lat_a lat_b t,
      (0 <= B2Q t)%Q -> (B2Q t <= 1)%Q ->
      find_grid_indices model lat_a lon = Ok ix ->
      find_grid_indices model lat_b lon = Ok ix ->
      exact_between lat_a lat_b t ->
      exact_query model lat_a lon ix h11 h12 h21 h22 ->
      exact_query model lat_b lon ix h11 h12 h21 h22 ->
      exact_query model (lat_a + t * (lat_b - lat_a))%float lon ix h11 h12 h21 h22 ->
      exists ha hb ht,
        interpolate_geoid_height model lat_a lon = Ok ha /\
        interpolate_geoid_height model lat_b lon = Ok hb /\
        find_grid_indices model (lat_a + t * (lat_b - lat_a))%float lon = Ok ix /\
        interpolate_geoid_height model (lat_a + t * (lat_b - lat_a))%float lon = Ok ht /\
        (B2Q ht == (1 - B2Q t) * B2Q ha + B2Q t * B2Q hb)%Q).
Proof.
  intros Slat Slon S11 S12 S21 S22. split.
  - intros lat lon_a lon_b t T0 T1 Fa Fb Bt Qa Qb Qt.
    pose proof (exact_between_value _ _ _ Bt) as Et.
    assert (Ft : find_grid_indices model lat (lon_a + t * (lon_b - lon_a))%float = Ok ix).
    { destruct Qa as (_ & Oa & _), Qb as (_ & Ob & _), Qt as (_ & Ot & _).
      apply exact_offset_position in Oa, Ob, Ot.
      destruct Oa as (_ & Pa), Ob as (_ & Pb), Ot as (Fin & Pt).
      apply (clamped_indices_between_col model
               ((lat - lat_min model) / lat_step model)%float
               ((lon_a - lon_min model) / lon_step model)%float
               (((lon_a + t * (lon_b - lon_a)) - lon_min model) / lon_step model)%float
               ((lon_b - lon_min model) / lon_step model)%float ix Fin);
        [|exact Fa|exact Fb].
      exact (position_between _ _ _ _ _ _ _ _ _ Slon T0 T1 Et Pa Pb Pt). }
    destruct (exact_query_value model lat lon_a ix _ _ _ _ Fa S11 S12 S21 S22 Qa)
      as (ha & Ia & Va).
    destruct (exact_query_value model lat lon_b ix _ _ _ _ Fb S11 S12 S21 S22 Qb)
      as (hb & Ib & Vb).
    destruct (exact_query_value model lat _ ix _ _ _ _ Ft S11 S12 S21 S22 Qt)
      as (ht & It & Vt).
    exists ha, hb, ht. repeat (split; [assumption|]).
    rewrite Vt, Va, Vb. apply bilinear_Q_affine_lon; assumption.
  - intros lon lat_a lat_b t T0 T1 Fa Fb Bt Qa Qb Qt.
    pose proof (exact_between_value _ _ _ Bt) as Et.
    assert (Ft : find_grid_indices model (lat_a + t * (lat_b - lat_a))%float lon = Ok ix).
    { destruct Qa as (Oa & _ & _), Qb as (Ob & _ & _), Qt as (Ot & _ & _).
      apply exact_offset_position in Oa, Ob, Ot.
      destruct Oa as (_ & Pa), Ob as (_ & Pb), Ot as (Fin & Pt).
      apply (clamped_indices_between_row model
               ((lon - lon_min model) / lon_step model)%float
               ((lat_a - lat_min model) / lat_step model)%float
               (((lat_a + t * (lat_b - lat_a)) - lat_min model) / lat_step model)%float
               ((lat_b - lat_min model) / lat_step model)%float ix Fin);
        [|exact Fa|exact Fb].
      exact (position_between _ _ _ _ _ _ _ _ _ Slat T0 T1 Et Pa Pb Pt). }
    destruct (exact_query_value model lat_a lon ix _ _ _ _ Fa S11 S12 S21 S22 Qa)
      as (ha & Ia & Va).
    destruct (exact_query_value model lat_b lon ix _ _ _ _ Fb S11 S12 S21 S22 Qb)
      as (hb & Ib & Vb).
    destruct (exact_query_value model _ lon ix _ _ _ _ Ft S11 S12 S21 S22 Qt)
      as (ht & It & Vt).
    exists ha, hb, ht. repeat (split; [assumption|]).
    rewrite Vt, Va, Vb. apply bilinear_Q_affine_lat; assumption.
Qed.

Lemma interpolate_affine_when_exact_witness :
  (exists ha hb ht,
      interpolate_geoid_height grid22 40.5%float (-8.75)%float = Ok ha /\
      interpolate_geoid_height grid22 40.5%float (-8.25)%float = Ok hb /\
      find_grid_indices grid22 40.5%float (-8.75 + 0.5 * (-8.25 - -8.75))%float
        = Ok {| row1 := 0; col1 := 0; row2 := 1; col2 := 1 |} /\
      interpolate_geoid_height grid22 40.5%float (-8.75 + 0.5 * (-8.25 - -8.75))%float
        = Ok ht /\
      (B2Q ht == (1 - B2Q 0.5) * B2Q ha + B2Q 0.5 * B2Q hb)%Q)
  /\
  (exists ha hb ht,
      interpolate_geoid_height grid22 40.25%float (-8.5)%float = Ok ha /\
      interpolate_geoid_height grid22 40.75%float (-8.5)%float = Ok hb /\
      find_grid_indices grid22 (40.25 + 0.25 * (40.75 - 40.25))%float (-8.5)%float
        = Ok {| row1 := 0; col1 := 0; row2 := 1; col2 := 1 |} /\
      interpolate_geoid_height grid22 (40.25 + 0.25 * (40.75 - 40.25))%float (-8.5)%float
        = Ok ht /\
      (B2Q ht == (1 - B2Q 0.25) * B2Q ha + B2Q 0.25 * B2Q hb)%Q).
Proof.
  destruct (interpolate_affine_when_exact grid22
              {| row1 := 0; col1 := 0; row2 := 1; col2 := 1 |}
              50%float 52%float 48%float 49%float) as [Lon Lat].
  - vm_compute. discriminate.
  - vm_compute. discriminate.
  - vm_compute. reflexivity.
  - vm_compute. reflexivity.
  - vm_compute. reflexivity.
  - vm_compute. reflexivity.
  - split.
    + apply (Lon 40.5%float (-8.75)%float (-8.25)%float 0.5%float).
      * vm_compute. discriminate.
      * vm_compute. discriminate.
      * vm_compute. reflexivity.
      * vm_compute. reflexivity.
      * unfold exact_between, exact_op. repeat split; vm_compute; reflexivity.
      * unfold exact_query, exact_offset, exact_blend, exact_op. cbv zeta.
        repeat split; vm_compute; reflexivity.
      * unfold exact_query, exact_offset, exact_blend, exact_op. cbv zeta.
        repeat split; vm_compute; reflexivity.
      * unfold exact_query, exact_offset, exact_blend, exact_op. cbv zeta.
        repeat split; vm_compute; reflexivity.
    + apply (Lat (-8.5)%float 40.25%float 40.75%float 0.25%float).
      * vm_compute. discriminate.
      * vm_compute. discriminate.
      * vm_compute. reflexivity.
      * vm_compute. reflexivity.
      * unfold exact_between, exact_op. repeat split; vm_compute; reflexivity.
      * unfold exact_query, exact_offset, exact_blend, exact_op. cbv zeta.
        repeat split; vm_compute; reflexivity.
      * unfold exact_query, exact_offset, exact_blend, exact_op. cbv zeta.
        repeat split; vm_compute; reflexivity.
      * unfold exact_query, exact_offset, exact_blend, exact_op. cbv zeta.
        repeat split; vm_compute; reflexivity.
Defined.
